(** * assignmentManager.js: a shallow embedding and its verified properties

    The JavaScript module defines four classes, [Assignment], [Observer],
    [Student] and [ClassList].  Objects are mutable and shared by reference:
    a [Student] sits in the rosters of class lists and is captured by the
    closures handed to [setTimeout]; an [Assignment] sits in its student's
    [assignmentStatuses] array and is captured by the same closures.

    The embedding therefore keeps an explicit store ([World]): a heap of
    students (a student reference is an index into it), a heap of class
    lists, the pending timers, the promises created so far and the console.
    An [Assignment] reference is the pair of its student and its position in
    [assignmentStatuses]; the program only ever pushes onto that array, so
    positions are stable.

    A JavaScript number is a binary64 floating-point value.  The embedding
    represents a finite one by the rational it denotes ([Q]); the only
    arithmetic of the module, the sum and the quotient of [getGrade], rounds
    its exact result to 53 significant bits, ties to even, as the language
    does ([round53]).  NaN, the infinities, the sign of zero and the bounds
    of the exponent (overflow, subnormal numbers) are not represented.
    [null]/[undefined] are [None]. *)

From Stdlib Require Import QArith Lqa.
From Stdlib Require SpecFloat.
From stdpp Require Import base relations list strings.

Open Scope string_scope.
Open Scope list_scope.

(** ** Numbers *)

(** [N / D] for [0 < D], rounded to the nearest integer, ties to even. *)
Definition roundHalfEven (N D : Z) : Z :=
  let fl := (N / D)%Z in
  let r := (N mod D)%Z in
  if (2 * r <? D)%Z then fl
  else if (D <? 2 * r)%Z then (fl + 1)%Z
  else if Z.even fl then fl else (fl + 1)%Z.

(** The binary64 value nearest to [x], ties to even: [x] is scaled by the
    power of two [e] that brings its magnitude into [2^52, 2^53), rounded to
    an integer [m] there, and [m * 2^e] is returned in lowest terms. *)
Definition round53 (x : Q) : Q :=
  let x := Qred x in
  let p := Z.abs (Qnum x) in
  let q := Zpos (Qden x) in
  if (p =? 0)%Z then 0%Q
  else
    let k := (Z.log2 p - Z.log2 q)%Z in
    let below :=
      if (0 <=? k)%Z then (p <? q * 2 ^ k)%Z else (p * 2 ^ (- k) <? q)%Z in
    let e := ((if below then k - 1 else k) - 52)%Z in
    let m :=
      if (0 <=? e)%Z then roundHalfEven p (q * 2 ^ e)
      else roundHalfEven (p * 2 ^ (- e)) q in
    let v := if (0 <=? e)%Z then inject_Z (m * 2 ^ e)
             else Qmake m (Z.to_pos (2 ^ (- e))) in
    Qred (if (Qnum x <? 0)%Z then Qopp v else v).

(** The operators [+] and [/] on numbers. *)
Definition numAdd (x y : Q) : Q := round53 (x + y).
Definition numDiv (x y : Q) : Q := round53 (x / y).

(** The Standard Library's specification of binary64 arithmetic
    ([SpecFloat], precision 53, maximal exponent 1024), to compare [numAdd]
    and [numDiv] with: the rational a finite number denotes, and the number
    of an integer. *)
Definition valueOf (f : SpecFloat.spec_float) : option Q :=
  match f with
  | SpecFloat.S754_zero _ => Some 0%Q
  | SpecFloat.S754_finite sg m e =>
      let v := if (0 <=? e)%Z then inject_Z (Zpos m * 2 ^ e)
               else Qmake (Zpos m) (Z.to_pos (2 ^ (- e))) in
      Some (Qred (if sg then Qopp v else v))
  | _ => None
  end.

Definition ofInteger (z : Z) : SpecFloat.spec_float :=
  SpecFloat.binary_normalize 53 1024 z 0 false.

(** [numDiv total n] is what the binary64 division returns. *)
Definition sameQuotient (total n : Z) : bool :=
  match valueOf (SpecFloat.SFdiv 53 1024 (ofInteger total) (ofInteger n)) with
  | Some q => Qeq_bool q (numDiv (inject_Z total) (inject_Z n))
  | None => false
  end.

(** [numAdd] of two quotients is what the binary64 addition of them
    returns. *)
Definition sameSum (a b c d : Z) : bool :=
  let x := SpecFloat.SFdiv 53 1024 (ofInteger a) (ofInteger b) in
  let y := SpecFloat.SFdiv 53 1024 (ofInteger c) (ofInteger d) in
  match valueOf x, valueOf y, valueOf (SpecFloat.SFadd 53 1024 x y) with
  | Some qx, Some qy, Some q => Qeq_bool q (numAdd qx qy)
  | _, _, _ => false
  end.

Arguments round53 : simpl never.
Arguments numAdd : simpl never.
Arguments numDiv : simpl never.

(** ** Assignment (lines 9-23) *)

Record Assignment := mkAssignment {
  assignmentName : string;
  status : string;
  _grade : option Q;
  isSubmitted : bool;
}.

(** [constructor(assignmentName)], lines 10-16. *)
Definition newAssignment (name : string) : Assignment :=
  {| assignmentName := name; status := "not assigned";
     _grade := None; isSubmitted := false |}.

Definition set_status (v : string) (a : Assignment) : Assignment :=
  {| assignmentName := assignmentName a; status := v;
     _grade := _grade a; isSubmitted := isSubmitted a |}.

Definition set_isSubmitted (v : bool) (a : Assignment) : Assignment :=
  {| assignmentName := assignmentName a; status := status a;
     _grade := _grade a; isSubmitted := v |}.

(** [setGrade(grade)], lines 19-22: [grade > 50 ? "pass" : "fail"]. *)
Definition setGrade (grade : Q) (a : Assignment) : Assignment :=
  {| assignmentName := assignmentName a;
     status := if Qlt_le_dec 50 grade then "pass" else "fail";
     _grade := Some grade;
     isSubmitted := isSubmitted a |}.

(** ** Observer (lines 29-63) *)

(** The message [Observer.notify] hands to [console.log]; the arrow is
    U+2192, three bytes in UTF-8. *)
Definition arrow : string :=
  String (Ascii.ascii_of_nat 226) (String (Ascii.ascii_of_nat 134)
    (String (Ascii.ascii_of_nat 146) EmptyString)).

Definition notifyMessage (studentName assignmentName status : string) : string :=
  let pre := "Observer " +:+ arrow +:+ " " in
  if decide (status = "released") then
    pre +:+ studentName +:+ ", " +:+ assignmentName +:+ " has been released."
  else if decide (status = "working") then
    pre +:+ studentName +:+ " is working on " +:+ assignmentName +:+ "."
  else if decide (status = "submitted") then
    pre +:+ studentName +:+ " has submitted " +:+ assignmentName +:+ "."
  else if decide (status = "pass") then
    pre +:+ studentName +:+ " has passed " +:+ assignmentName
  else if decide (status = "fail") then
    pre +:+ studentName +:+ " has failed " +:+ assignmentName
  else if decide (status = "final reminder") then
    pre +:+ "Reminder for " +:+ studentName +:+ ": " +:+ assignmentName
        +:+ " is due soon."
  else
    pre +:+ studentName +:+ ", " +:+ assignmentName +:+ " status is "
        +:+ status +:+ ".".

(** What a caller may have passed as its observer: nothing ([None]), or an
    object that does or does not carry a [notify] function.  Callers test
    [this._observer && typeof this._observer.notify === "function"]. *)
Record Observer := mkObserver { has_notify : bool }.

Definition callable (o : option Observer) : bool :=
  match o with
  | Some ob => has_notify ob
  | None => false
  end.

(** ** Student (lines 72-221), the data and the methods without effects *)

Record Student := mkStudent {
  fullName : string;
  email : string;
  assignmentStatuses : list Assignment;
  overallGrade : option Q;
  _observer : option Observer;
}.

(** [constructor(fullName, email, observer)], lines 73-79. *)
Definition newStudent (name mail : string) (observer : option Observer) : Student :=
  {| fullName := name; email := mail; assignmentStatuses := [];
     overallGrade := None; _observer := observer |}.

Definition setFullName (name : string) (this : Student) : Student :=
  {| fullName := name; email := email this;
     assignmentStatuses := assignmentStatuses this;
     overallGrade := overallGrade this; _observer := _observer this |}.

Definition setEmail (mail : string) (this : Student) : Student :=
  {| fullName := fullName this; email := mail;
     assignmentStatuses := assignmentStatuses this;
     overallGrade := overallGrade this; _observer := _observer this |}.

Definition set_assignmentStatuses (l : list Assignment) (this : Student) : Student :=
  {| fullName := fullName this; email := email this;
     assignmentStatuses := l;
     overallGrade := overallGrade this; _observer := _observer this |}.

Definition set_overallGrade (g : option Q) (this : Student) : Student :=
  {| fullName := fullName this; email := email this;
     assignmentStatuses := assignmentStatuses this;
     overallGrade := g; _observer := _observer this |}.

(** [Array.prototype.find] with the predicate
    [a => a.assignmentName === assignmentName] (lines 91, 263, 334): the
    first match, as its position and the object found there. *)
Definition findByName (name : string) (l : list Assignment) : option (nat * Assignment) :=
  list_find (λ a, assignmentName a = name) l.

Definition _findAssignment (name : string) (this : Student) : option (nat * Assignment) :=
  findByName name (assignmentStatuses this).

(** [this.assignmentStatuses.push(assignment)]. *)
Definition pushAssignment (a : Assignment) (this : Student) : Student :=
  set_assignmentStatuses (assignmentStatuses this ++ [a]) this.

(** A field write through an assignment reference held by [this]. *)
Definition writeAssignment (aid : nat) (a : Assignment) (this : Student) : Student :=
  set_assignmentStatuses (<[aid := a]> (assignmentStatuses this)) this.

(** [getAssignmentStatus(assignmentName)], lines 129-140. *)
Definition getAssignmentStatus (name : string) (this : Student) : string :=
  match _findAssignment name this with
  | None => "Hasn't been assigned"
  | Some (_, assignment) =>
      if decide (status assignment = "pass") then "Pass"
      else if decide (status assignment = "fail") then "Fail"
      else status assignment
  end.

(** [getGrade()], lines 205-220: the value returned and [this] afterwards.
    [typeof a._grade === "number"] is [is_Some]; [reduce] is a left fold
    from 0 with the rounding [+] of numbers (line 215), and the quotient of
    line 216 rounds as well. *)
Definition isGraded (a : Assignment) : bool :=
  match _grade a with Some _ => true | None => false end.

Definition gradeOf (a : Assignment) : Q :=
  match _grade a with Some g => g | None => 0 end.

Definition getGrade (this : Student) : option Q * Student :=
  let gradedAssignments := List.filter isGraded (assignmentStatuses this) in
  if decide (length gradedAssignments = 0%nat) then
    (None, set_overallGrade None this)
  else
    let total := fold_left (λ sum a, numAdd sum (gradeOf a)) gradedAssignments 0%Q in
    let average := numDiv total (inject_Z (Z.of_nat (length gradedAssignments))) in
    (Some average, set_overallGrade (Some average) this).

(** The block that opens [updateAssignmentStatus], [startWorking] and
    [submitAssignment] (lines 110-116, 149-154, 177-182): look the name up
    and, when it is absent, push the freshly built assignment.  The result
    is the reference, the object and [this] afterwards. *)
Definition findOrCreate (fresh : Assignment) (name : string) (this : Student)
    : nat * Assignment * Student :=
  match _findAssignment name this with
  | Some (aid, assignment) => (aid, assignment, this)
  | None => (length (assignmentStatuses this), fresh, pushAssignment fresh this)
  end.

(** ** ClassList (lines 230-355), the data *)

Record ClassList := mkClassList {
  students : list nat;                (* references into the student heap *)
  cl_observer : option Observer;      (* [ClassList._observer] *)
}.

(** [constructor(observer)], lines 231-234. *)
Definition newClassList (observer : option Observer) : ClassList :=
  {| students := []; cl_observer := observer |}.

Definition set_students (l : list nat) (this : ClassList) : ClassList :=
  {| students := l; cl_observer := cl_observer this |}.

(** ** The store *)

(** The three closures the module hands to [setTimeout], with what each one
    captures. *)
Inductive Callback :=
  | AutoSubmit (sid aid : nat) (name : string)       (* lines 159-167 *)
  | GradeSubmission (sid aid : nat)                  (* lines 192-197 *)
  | ReleaseToRoster (cid : nat) (name : string) (pid : nat). (* lines 313-318 *)

Record Timer := mkTimer { callback : Callback; delay : nat }.

(** A line written by [console.log]; a line written by [Observer.notify]
    remembers the student it was called with. *)
Inductive Output :=
  | Notification (sid : nat) (message : string)
  | Line (message : string).

Record World := mkWorld {
  heap : list Student;
  classLists : list ClassList;
  timers : list Timer;
  promises : list bool;               (* [true]: resolved *)
  console : list Output;
}.

Definition initialWorld : World :=
  {| heap := []; classLists := []; timers := []; promises := []; console := [] |}.

Definition set_heap (h : list Student) (w : World) : World :=
  {| heap := h; classLists := classLists w; timers := timers w;
     promises := promises w; console := console w |}.

Definition set_classLists (c : list ClassList) (w : World) : World :=
  {| heap := heap w; classLists := c; timers := timers w;
     promises := promises w; console := console w |}.

Definition set_timers (t : list Timer) (w : World) : World :=
  {| heap := heap w; classLists := classLists w; timers := t;
     promises := promises w; console := console w |}.

Definition set_promises (p : list bool) (w : World) : World :=
  {| heap := heap w; classLists := classLists w; timers := timers w;
     promises := p; console := console w |}.

Definition set_console (c : list Output) (w : World) : World :=
  {| heap := heap w; classLists := classLists w; timers := timers w;
     promises := promises w; console := c |}.

Definition writeStudent (sid : nat) (s : Student) (w : World) : World :=
  set_heap (<[sid := s]> (heap w)) w.

Definition writeClassList (cid : nat) (c : ClassList) (w : World) : World :=
  set_classLists (<[cid := c]> (classLists w)) w.

Definition console_log (o : Output) (w : World) : World :=
  set_console (console w ++ [o]) w.

Definition setTimeout (cb : Callback) (ms : nat) (w : World) : World :=
  set_timers (timers w ++ [mkTimer cb ms]) w.

(** [Observer.notify(student, assignment)], lines 30-62. *)
Definition notify (sid : nat) (student : Student) (assignment : Assignment)
    (w : World) : World :=
  console_log
    (Notification sid
       (notifyMessage (fullName student) (assignmentName assignment)
          (status assignment))) w.

(** The guarded call of lines 98-100 and 347-349. *)
Definition notifyVia (observer : option Observer) (sid : nat) (student : Student)
    (assignment : Assignment) (w : World) : World :=
  if callable observer then notify sid student assignment w else w.

(** [_notifyObserver(assignment)], lines 97-101. *)
Definition _notifyObserver (sid : nat) (this : Student) (assignment : Assignment)
    (w : World) : World :=
  notifyVia (_observer this) sid this assignment w.

(** ** Student, the methods with effects

    Each takes the reference [sid] of [this]; a reference that is not in the
    heap cannot arise from the program and leaves the world as it is. *)

(** [updateAssignmentStatus(assignmentName, grade)], lines 109-123;
    [typeof grade === "number"] is [grade = Some _]. *)
Definition updateAssignmentStatus (sid : nat) (name : string) (grade : option Q)
    (w : World) : World :=
  match heap w !! sid with
  | None => w
  | Some this =>
      let '(aid, assignment, this1) :=
        findOrCreate (set_status "released" (newAssignment name)) name this in
      let assignment' :=
        match grade with
        | Some g => setGrade g assignment
        | None => assignment
        end in
      let this2 := writeAssignment aid assignment' this1 in
      _notifyObserver sid this2 assignment' (writeStudent sid this2 w)
  end.

(** [startWorking(assignmentName)], lines 148-168. *)
Definition startWorking (sid : nat) (name : string) (w : World) : World :=
  match heap w !! sid with
  | None => w
  | Some this =>
      let '(aid, assignment, this1) := findOrCreate (newAssignment name) name this in
      let assignment' := set_status "working" assignment in
      let this2 := writeAssignment aid assignment' this1 in
      let w1 := _notifyObserver sid this2 assignment' (writeStudent sid this2 w) in
      setTimeout (AutoSubmit sid aid name) 500 w1
  end.

(** [submitAssignment(assignmentName)], lines 176-198. *)
Definition submitAssignment (sid : nat) (name : string) (w : World) : World :=
  match heap w !! sid with
  | None => w
  | Some this =>
      let '(aid, assignment, this1) := findOrCreate (newAssignment name) name this in
      if isSubmitted assignment then
        writeStudent sid this1 w
      else
        let assignment' := set_status "submitted" (set_isSubmitted true assignment) in
        let this2 := writeAssignment aid assignment' this1 in
        let w1 := _notifyObserver sid this2 assignment' (writeStudent sid this2 w) in
        setTimeout (GradeSubmission sid aid) 500 w1
  end.

(** ** ClassList, the methods *)

(** The [Student] objects an array of references holds. *)
Definition deref (w : World) (l : list nat) : list Student :=
  omap (λ sid, heap w !! sid) l.

(** [addStudent(student)], lines 237-240. *)
Definition addStudent (cid sid : nat) (w : World) : World :=
  match classLists w !! cid, heap w !! sid with
  | Some this, Some student =>
      console_log (Line (fullName student +:+ " has been added to the classlist."))
        (writeClassList cid (set_students (students this ++ [sid]) this) w)
  | _, _ => w
  end.

(** [removeStudent(student)], lines 242-244: [s !== student] compares
    references. *)
Definition removeStudent (cid sid : nat) (w : World) : World :=
  match classLists w !! cid with
  | Some this =>
      writeClassList cid
        (set_students (List.filter (λ s, bool_decide (s ≠ sid)) (students this)) this) w
  | None => w
  end.

(** [findStudentByName(fullName)], lines 246-248. *)
Definition findStudentByName (cid : nat) (name : string) (w : World) : option nat :=
  match classLists w !! cid with
  | Some this =>
      List.find
        (λ sid, match heap w !! sid with
                | Some s => bool_decide (fullName s = name)
                | None => false
                end) (students this)
  | None => None
  end.

Definition isCompleted (st : string) : bool :=
  bool_decide (st = "submitted") || bool_decide (st = "pass")
  || bool_decide (st = "fail").

(** The first [forEach] of [findOutstandingAssignments], lines 259-284: one
    round of its body on the two variables it updates. *)
Definition scanStudent (name : string) (acc : list string * bool) (student : Student)
    : list string * bool :=
  let '(outstandingForName, anySubmittedForName) := acc in
  match findByName name (assignmentStatuses student) with
  | Some (_, assignment) =>
      let anySubmittedForName :=
        if isCompleted (status assignment) then true else anySubmittedForName in
      let outstandingForName :=
        if bool_decide (status assignment ≠ "submitted")
           && bool_decide (status assignment ≠ "pass")
           && bool_decide (status assignment ≠ "fail")
        then outstandingForName ++ [fullName student]
        else outstandingForName in
      (outstandingForName, anySubmittedForName)
  | None => (outstandingForName, anySubmittedForName)
  end.

(** The second [forEach], lines 291-299. *)
Definition scanFallback (fallback : list string) (student : Student) : list string :=
  let hasOutstanding :=
    existsb (λ a, bool_decide (status a = "released")
                  || bool_decide (status a = "working"))
      (assignmentStatuses student) in
  if hasOutstanding then fallback ++ [fullName student] else fallback.

(** [findOutstandingAssignments(assignmentName)], lines 258-302, on the
    objects of [this.students]. *)
Definition findOutstanding (roster : list Student) (name : string) : list string :=
  let '(outstandingForName, anySubmittedForName) :=
    fold_left (scanStudent name) roster ([], false) in
  if anySubmittedForName then outstandingForName
  else fold_left scanFallback roster [].

Definition findOutstandingAssignments (cid : nat) (name : string) (w : World)
    : list string :=
  match classLists w !! cid with
  | Some this => findOutstanding (deref w (students this)) name
  | None => []
  end.

(** [releaseAssignmentsParallel(assignmentNames)], lines 308-323.  Each round
    of [map] creates a promise and its executor arms a timer; [Promise.all]
    of the promises is represented by their references. *)
Definition armRelease (cid : nat) (acc : list nat * World) (name : string)
    : list nat * World :=
  let '(created, w) := acc in
  let pid := length (promises w) in
  let w1 := set_promises (promises w ++ [false]) w in
  (created ++ [pid], setTimeout (ReleaseToRoster cid name pid) 0 w1).

Definition releaseAssignmentsParallel (cid : nat) (names : list string) (w : World)
    : list nat * World :=
  fold_left (armRelease cid) names ([], w).

(** [Promise.all(ps)] is resolved once every promise of [ps] is. *)
Definition allResolved (w : World) (ps : list nat) : bool :=
  forallb (λ pid, bool_decide (promises w !! pid = Some true)) ps.

(** One round of the [forEach] of [sendReminder], lines 333-353. *)
Definition remindStudent (observer : option Observer) (name : string) (w : World)
    (sid : nat) : World :=
  match heap w !! sid with
  | None => w
  | Some student =>
      match findByName name (assignmentStatuses student) with
      | None => w
      | Some (aid, assignment) =>
          if bool_decide (status assignment = "pass")
             || bool_decide (status assignment = "fail")
          then w
          else
            let assignment' := set_status "final reminder" assignment in
            let student' := writeAssignment aid assignment' student in
            let w1 := writeStudent sid student' w in
            let w2 := notifyVia observer sid student' assignment' w1 in
            submitAssignment sid name w2
      end
  end.

(** [sendReminder(assignmentName)], lines 332-354. *)
Definition sendReminder (cid : nat) (name : string) (w : World) : World :=
  match classLists w !! cid with
  | Some this => fold_left (remindStudent (cl_observer this) name) (students this) w
  | None => w
  end.

(** ** The timer callbacks *)

(** [resolve()] of the promise [pid]. *)
Definition resolve (pid : nat) (w : World) : World :=
  set_promises (<[pid := true]> (promises w)) w.

(** Running a callback; [draw] is the value of
    [Math.floor(Math.random() * 101)] should the callback ask for one. *)
Definition runCallback (draw : Z) (cb : Callback) (w : World) : World :=
  match cb with
  | AutoSubmit sid aid name =>
      match heap w !! sid with
      | Some this =>
          match assignmentStatuses this !! aid with
          | Some assignment =>
              if negb (isSubmitted assignment)
                 && bool_decide (status assignment ≠ "pass")
                 && bool_decide (status assignment ≠ "fail")
              then submitAssignment sid name w
              else w
          | None => w
          end
      | None => w
      end
  | GradeSubmission sid aid =>
      match heap w !! sid with
      | Some this =>
          match assignmentStatuses this !! aid with
          | Some assignment =>
              let assignment' := setGrade (inject_Z draw) assignment in
              let this1 := writeAssignment aid assignment' this in
              let this2 := snd (getGrade this1) in
              _notifyObserver sid this2 assignment' (writeStudent sid this2 w)
          | None => w
          end
      | None => w
      end
  | ReleaseToRoster cid name pid =>
      match classLists w !! cid with
      | Some this =>
          resolve pid
            (fold_left (λ w sid, updateAssignmentStatus sid name None w)
               (students this) w)
      | None => w
      end
  end.

(** The [i]-th pending timer expires: it leaves the queue and its callback
    runs.  Which pending timer expires next is left open, so every order the
    event loop can produce is covered. *)
Definition fire (i : nat) (draw : Z) (w : World) : World :=
  match timers w !! i with
  | Some t => runCallback draw (callback t) (set_timers (delete i (timers w)) w)
  | None => w
  end.

(** ** Programs over the module

    What a client can do with the exported classes, besides the queries that
    leave the store alone: build objects, call the methods, and let a
    pending timer expire. *)
Inductive Op :=
  | OpNewStudent (name mail : string) (observer : option Observer)
  | OpSetFullName (sid : nat) (name : string)
  | OpSetEmail (sid : nat) (mail : string)
  | OpUpdateAssignmentStatus (sid : nat) (name : string) (grade : option Q)
  | OpStartWorking (sid : nat) (name : string)
  | OpSubmitAssignment (sid : nat) (name : string)
  | OpGetGrade (sid : nat)
  | OpNewClassList (observer : option Observer)
  | OpAddStudent (cid sid : nat)
  | OpRemoveStudent (cid sid : nat)
  | OpReleaseAssignmentsParallel (cid : nat) (names : list string)
  | OpSendReminder (cid : nat) (name : string)
  | OpTimer (i : nat) (draw : Z).

Definition alterStudent (sid : nat) (f : Student → Student) (w : World) : World :=
  set_heap (alter f sid (heap w)) w.

Definition exec (op : Op) (w : World) : World :=
  match op with
  | OpNewStudent name mail observer =>
      set_heap (heap w ++ [newStudent name mail observer]) w
  | OpSetFullName sid name => alterStudent sid (setFullName name) w
  | OpSetEmail sid mail => alterStudent sid (setEmail mail) w
  | OpUpdateAssignmentStatus sid name grade => updateAssignmentStatus sid name grade w
  | OpStartWorking sid name => startWorking sid name w
  | OpSubmitAssignment sid name => submitAssignment sid name w
  | OpGetGrade sid => alterStudent sid (λ this, snd (getGrade this)) w
  | OpNewClassList observer =>
      set_classLists (classLists w ++ [newClassList observer]) w
  | OpAddStudent cid sid => addStudent cid sid w
  | OpRemoveStudent cid sid => removeStudent cid sid w
  | OpReleaseAssignmentsParallel cid names =>
      snd (releaseAssignmentsParallel cid names w)
  | OpSendReminder cid name => sendReminder cid name w
  | OpTimer i draw => fire i draw w
  end.

(** The random draw is an integer between 0 and 100. *)
Definition allowed (op : Op) : Prop :=
  match op with
  | OpTimer _ draw => (0 <= draw <= 100)%Z
  | _ => True
  end.

Definition run (ops : list Op) (w : World) : World :=
  fold_left (λ w op, exec op w) ops w.

Inductive reachable : World → Prop :=
  | reachable_init : reachable initialWorld
  | reachable_step w op : reachable w → allowed op → reachable (exec op w).

(** ** Reference definitions the properties are stated with *)

(** The grades of exactly the graded assignments of a student, in order. *)
Definition gradesOf (this : Student) : list Q :=
  omap _grade (assignmentStatuses this).





(** [this] has an assignment called [name] whose status satisfies [p]. *)
Definition hasNamed (p : string → bool) (name : string) (this : Student) : bool :=
  existsb (λ a, bool_decide (assignmentName a = name) && p (status a))
    (assignmentStatuses this).

Definition isInFlight (st : string) : bool :=
  bool_decide (st = "released") || bool_decide (st = "working").

Definition hasInFlight (this : Student) : bool :=
  existsb (λ a, isInFlight (status a)) (assignmentStatuses this).

(** The two-mode query in the words of the specification. *)
Definition outstandingSpec (roster : list Student) (name : string) : list string :=
  if existsb (hasNamed isCompleted name) roster
  then map fullName (List.filter (hasNamed (λ st, negb (isCompleted st)) name) roster)
  else map fullName (List.filter hasInFlight roster).

(** Assignment names are unique within a student. *)
Definition uniqueNames (this : Student) : Prop :=
  NoDup (map assignmentName (assignmentStatuses this)).

Definition isTerminal (st : string) : Prop := st = "pass" ∨ st = "fail".

(** The number of pending grading events for one assignment. *)
Definition pendingGradings (sid aid : nat) (w : World) : nat :=
  length (List.filter
            (λ t, match callback t with
                  | GradeSubmission s a => bool_decide (s = sid ∧ a = aid)
                  | _ => false
                  end) (timers w)).

(** ** How the methods change students

    No method removes a student from the heap, and every method changes the
    [assignmentStatuses] of a student in one of three ways: not at all, by one of the field writes below on an assignment
    already there, or by pushing an assignment under a name that was absent,
    in the state the creating method leaves it in. *)
Inductive assignmentWrite : Assignment → Assignment → Prop :=
  | aw_working a : assignmentWrite a (set_status "working" a)
  | aw_submitted a :
      isSubmitted a = false →
      assignmentWrite a (set_status "submitted" (set_isSubmitted true a))
  | aw_graded g a : assignmentWrite a (setGrade g a)
  | aw_reminder a :
      ¬ isTerminal (status a) → assignmentWrite a (set_status "final reminder" a).

Inductive created (name : string) : Assignment → Prop :=
  | cr_released : created name (set_status "released" (newAssignment name))
  | cr_graded g :
      created name (setGrade g (set_status "released" (newAssignment name)))
  | cr_working : created name (set_status "working" (newAssignment name))
  | cr_submitted :
      created name
        (set_status "submitted" (set_isSubmitted true (newAssignment name))).

Inductive arrayStep : list Assignment → list Assignment → Prop :=
  | as_same l : arrayStep l l
  | as_write l aid a a' :
      l !! aid = Some a → assignmentWrite a a' → arrayStep l (<[aid := a']> l)
  | as_push l name a' :
      findByName name l = None → created name a' → arrayStep l (l ++ [a']).

Inductive heapStep : list Student → list Student → Prop :=
  | hs_student h sid this this' :
      h !! sid = Some this →
      arrayStep (assignmentStatuses this) (assignmentStatuses this') →
      heapStep h (<[sid := this']> h).



(** [name] has been released to every student of the roster. *)
Definition releasedTo (roster : list nat) (name : string) (w : World) : Prop :=
  ∀ sid this, sid ∈ roster → heap w !! sid = Some this →
    is_Some (_findAssignment name this).


(** ** What one student sees of the console and of the timers *)

Definition notificationsFor (sid : nat) (c : list Output) : list string :=
  omap (λ o, match o with
             | Notification s m => if decide (s = sid) then Some m else None
             | Line _ => None
             end) c.

Definition concerns (sid : nat) (cb : Callback) : bool :=
  match cb with
  | AutoSubmit s _ _ | GradeSubmission s _ => bool_decide (s = sid)
  | ReleaseToRoster _ _ _ => false
  end.

Definition timersFor (sid : nat) (t : list Timer) : list Timer :=
  List.filter (λ x, concerns sid (callback x)) t.

(** The world after student [sid] became [s'], the lines [lines] were
    printed and the timers [armed] were armed. *)
Definition extendWorld (w : World) (sid : nat) (s' : Student)
    (lines : list Output) (armed : list Timer) : World :=
  {| heap := <[sid := s']> (heap w); classLists := classLists w;
     timers := timers w ++ armed; promises := promises w;
     console := console w ++ lines |}.

(** The reminder transition of one student in the words of the
    specification: nothing for a student without the assignment or with a
    terminal one; otherwise the status is forced to final reminder, the
    class list's observer is notified, and the assignment is submitted,
    which does something only if it was not submitted before.  The result
    is the student afterwards, the lines printed and the timers armed. *)
Definition reminderOutcome (classObserver : option Observer) (name : string)
    (sid : nat) (student : Student)
    : option (Student * list Output * list Timer) :=
  match findByName name (assignmentStatuses student) with
  | None => None
  | Some (aid, a) =>
      if bool_decide (status a = "pass") || bool_decide (status a = "fail")
      then None
      else
        let reminderLine :=
          if callable classObserver
          then [Notification sid
                  (notifyMessage (fullName student) (assignmentName a)
                     "final reminder")]
          else [] in
        if isSubmitted a then
          Some (writeAssignment aid (set_status "final reminder" a) student,
                reminderLine, [])
        else
          let submittedLine :=
            if callable (_observer student)
            then [Notification sid
                    (notifyMessage (fullName student) (assignmentName a)
                       "submitted")]
            else [] in
          Some (writeAssignment aid
                  (set_status "submitted" (set_isSubmitted true a)) student,
                reminderLine ++ submittedLine,
                [mkTimer (GradeSubmission sid aid) 500])
  end.

Definition viewOf (sid : nat) (w : World)
    : option Student * list string * list Timer :=
  (heap w !! sid, notificationsFor sid (console w), timersFor sid (timers w)).

(** [student] is passed over by a reminder for [name]. *)
Definition passedOver (name : string) (student : Student) : Prop :=
  findByName name (assignmentStatuses student) = None
  ∨ ∃ aid a, findByName name (assignmentStatuses student) = Some (aid, a)
             ∧ isTerminal (status a).

(** ** Vocabulary for the parallel release *)

(** The timers [releaseAssignmentsParallel] arms when [base] promises exist
    already. *)
Fixpoint releaseTimers (cid base : nat) (names : list string) : list Timer :=
  match names with
  | [] => []
  | name :: rest =>
      mkTimer (ReleaseToRoster cid name base) 0 :: releaseTimers cid (S base) rest
  end.

Definition isRelease (cb : Callback) : Prop :=
  match cb with
  | ReleaseToRoster _ _ _ => True
  | _ => False
  end.

Definition isTimerOp (op : Op) : Prop :=
  match op with
  | OpTimer _ _ => True
  | _ => False
  end.


(** A method that leaves the class lists and the promises alone and arms no
    release. *)
Definition calm (w w' : World) : Prop :=
  classLists w' = classLists w
  ∧ promises w' = promises w
  ∧ ∀ t, t ∈ timers w' → t ∈ timers w ∨ ¬ isRelease (callback t).

(** A graded-looking status comes with a grade. *)
Definition gradedWhenTerminal (l : list Assignment) : Prop :=
  Forall (λ a, isTerminal (status a) → is_Some (_grade a)) l.

(** Student [sid] of the heap [h], if there, has an assignment called
    [name]. *)
Definition holds (name : string) (sid : nat) (h : list Student) : Prop :=
  ∀ this, h !! sid = Some this → is_Some (_findAssignment name this).



(** ** Concrete states used in the examples *)


(** Three submissions graded 50, 51 and 51. *)
Definition world_thirds : World :=
  run [OpNewStudent "Ada" "ada@example.org" None;
       OpSubmitAssignment 0 "HW1"; OpSubmitAssignment 0 "HW2";
       OpSubmitAssignment 0 "HW3";
       OpTimer 0 50; OpTimer 0 51; OpTimer 0 51] initialWorld.

Definition ada_thirds : Student :=
  mkStudent "Ada" "ada@example.org"
    [mkAssignment "HW1" "fail" (Some 50%Q) true;
     mkAssignment "HW2" "pass" (Some 51%Q) true;
     mkAssignment "HW3" "pass" (Some 51%Q) true]
    (Some (7130699410003285 # 140737488355328)%Q) None.

Definition world_submitted_once : World :=
  run [OpNewStudent "Ada" "ada@example.org" (Some (mkObserver true));
       OpSubmitAssignment 0 "HW1"] initialWorld.

Definition world_graded : World :=
  run [OpNewStudent "Ada" "ada@example.org" (Some (mkObserver true));
       OpSubmitAssignment 0 "HW1"; OpTimer 0 70] initialWorld.

Definition ada_graded : Student :=
  mkStudent "Ada" "ada@example.org"
    [mkAssignment "HW1" "pass" (Some 70%Q) true] (Some (70 / 1)%Q)
    (Some (mkObserver true)).

Definition world_reworked : World := exec (OpStartWorking 0 "HW1") world_graded.

Definition world_update_graded : World :=
  run [OpNewStudent "Ada" "ada@example.org" (Some (mkObserver true));
       OpUpdateAssignmentStatus 0 "HW1" (Some 80%Q)] initialWorld.

Definition world_roster : World :=
  run [OpNewStudent "A" "a@example.org" (Some (mkObserver true));
       OpNewStudent "B" "b@example.org" None;
       OpNewClassList (Some (mkObserver true));
       OpAddStudent 0 0; OpAddStudent 0 1;
       OpUpdateAssignmentStatus 0 "HW1" None;
       OpUpdateAssignmentStatus 1 "HW2" None] initialWorld.

Definition class_roster : ClassList :=
  {| students := [0; 1]%nat; cl_observer := Some (mkObserver true) |}.

(** The roster of [world_roster] with student A enrolled a second time. *)
Definition world_enrolled_twice : World := exec (OpAddStudent 0 0) world_roster.

(** [world_roster] after student B was taken off the roster. *)
Definition world_unenrolled : World := exec (OpRemoveStudent 0 1) world_roster.

Definition world_reminded : World :=
  run [OpUpdateAssignmentStatus 0 "HW2" (Some 90%Q)] world_roster.

Definition world_raced : World :=
  run [OpNewStudent "Ada" "ada@example.org" (Some (mkObserver true));
       OpNewClassList None; OpAddStudent 0 0;
       OpStartWorking 0 "HW1"; OpSendReminder 0 "HW1";
       OpSubmitAssignment 0 "HW1"; OpTimer 0 0] initialWorld.

(** ** Vocabulary for the further properties *)

(** The roster of class list [cid]; empty when there is no such class
    list. *)
Definition rosterOf (cid : nat) (w : World) : list nat :=
  match classLists w !! cid with
  | Some this => students this
  | None => []
  end.

(** [this] has an assignment that is not submitted, passed or failed. *)
Definition hasOpen (this : Student) : bool :=
  existsb (λ a, negb (isCompleted (status a))) (assignmentStatuses this).

(** What no operation undoes on an assignment: its name, a submission, the
    presence of a grade. *)
Definition kept (a a' : Assignment) : Prop :=
  assignmentName a' = assignmentName a
  ∧ (isSubmitted a = true → isSubmitted a' = true)
  ∧ (is_Some (_grade a) → is_Some (_grade a')).

(** The assignment called [name] of student [sid], if there is one, needs no
    reminder any more: it is passed or failed, or it is submitted and shows
    as submitted or as reminded. *)
Definition settled (name : string) (sid : nat) (h : list Student) : Prop :=
  ∀ this aid a,
    h !! sid = Some this →
    findByName name (assignmentStatuses this) = Some (aid, a) →
    isTerminal (status a)
    ∨ (isSubmitted a = true
       ∧ (status a = "submitted" ∨ status a = "final reminder")).

(** The assignment at position [aid] of student [sid] is submitted. *)
Definition submittedAt (sid aid : nat) (h : list Student) : Prop :=
  ∃ this a, h !! sid = Some this ∧ assignmentStatuses this !! aid = Some a
            ∧ isSubmitted a = true.

(** No assignment has two grading events pending, and one that has a
    grading event pending is submitted. *)
Definition gradingInv (w : World) : Prop :=
  ∀ sid aid,
    (pendingGradings sid aid w ≤ 1)%nat
    ∧ ((1 ≤ pendingGradings sid aid w)%nat → submittedAt sid aid (heap w)).

(** What [getAssignmentStatus(name)] answers for student [sid]. *)
Definition statusOf (sid : nat) (name : string) (w : World) : option string :=
  getAssignmentStatus name <$> heap w !! sid.

(** * Properties *)

(** ** Assignment *)

(** C2. After [setGrade(g)] the stored grade is [g] and the status is
    [pass] exactly when [g > 50] and [fail] otherwise; 50 fails and 51
    passes. *)
Theorem setGrade_pass_iff_above_50 (g : Q) (a : Assignment) :
  _grade (setGrade g a) = Some g
  ∧ (status (setGrade g a) = "pass" ↔ (50 < g)%Q)
  ∧ (status (setGrade g a) = "fail" ↔ ¬ (50 < g)%Q)
  ∧ status (setGrade 50 a) = "fail"
  ∧ status (setGrade 51 a) = "pass".
Proof.
  split; [reflexivity|].
  split.
  { unfold setGrade; simpl. destruct (Qlt_le_dec 50 g) as [Hlt|Hle].
    - tauto.
    - split; [discriminate|]. intros Hlt. exfalso. lra. }
  split.
  { unfold setGrade; simpl. destruct (Qlt_le_dec 50 g) as [Hlt|Hle].
    - split; [discriminate|]. tauto.
    - split; [|reflexivity]. intros _ Hlt. lra. }
  split; reflexivity.
Qed.

(** ** getAssignmentStatus *)

Lemma findByName_Some name l aid a :
  findByName name l = Some (aid, a) →
  l !! aid = Some a ∧ assignmentName a = name.
Proof.
  unfold findByName. intros H. apply list_find_Some in H. tauto.
Qed.

Lemma findByName_None name l :
  findByName name l = None ↔ name ∉ map assignmentName l.
Proof.
  unfold findByName. rewrite list_find_None, Forall_forall.
  split.
  - intros H Hin. apply list_elem_of_fmap in Hin as (a & -> & Ha). by apply (H a).
  - intros H a Ha Hn. apply H. apply list_elem_of_fmap. eauto.
Qed.

(** ** getGrade *)




(** ** Rounding *)





(** On a grid of operands [numDiv] and [numAdd] return what the binary64
    division and addition of [SpecFloat] return: all quotients of an integer
    in 0..400 by one in 1..4 (every mean of up to four grades drawn by
    grading events is among them), and all sums of two quotients [a/b] and
    [c/7] with [a], [c] in -10..10 and [b] in 1..6, which need rounding. *)
Lemma numDiv_numAdd_binary64 :
  forallb (λ n, forallb (λ total, sameQuotient total n)
                  (Z.of_nat <$> seq 0 401))
    (Z.of_nat <$> seq 1 4) = true
  ∧ forallb (λ a, forallb (λ b, forallb (λ c, sameSum (a - 10) b (c - 10) 7)
                                 (Z.of_nat <$> seq 0 21))
                    (Z.of_nat <$> seq 1 6))
      (Z.of_nat <$> seq 0 21) = true.
Proof. split; vm_compute; reflexivity. Qed.




Lemma assignmentStatuses_getGrade this :
  assignmentStatuses (snd (getGrade this)) = assignmentStatuses this.
Proof. unfold getGrade. destruct (decide _); reflexivity. Qed.



(** ** Lookups after a push or a field write *)

Lemma findByName_push name l fresh :
  findByName name l = None → assignmentName fresh = name →
  findByName name (l ++ [fresh]) = Some (length l, fresh).
Proof.
  unfold findByName. intros Hnone Hname.
  rewrite list_find_None in Hnone.
  apply list_find_Some. split; [|split].
  - rewrite lookup_app_r by lia. by rewrite Nat.sub_diag.
  - exact Hname.
  - intros j y Hj Hlt. rewrite lookup_app_l in Hj by lia.
    rewrite Forall_forall in Hnone. apply Hnone.
    apply list_elem_of_lookup. eauto.
Qed.

Lemma findByName_write name l aid a a' :
  findByName name l = Some (aid, a) → assignmentName a' = name →
  findByName name (<[aid := a']> l) = Some (aid, a').
Proof.
  unfold findByName. intros Hfind Hname.
  apply list_find_Some in Hfind as (Hl & _ & Hfirst).
  apply list_find_Some. split; [|split].
  - apply list_lookup_insert_eq. by eapply lookup_lt_Some.
  - exact Hname.
  - intros j y Hj Hlt. rewrite list_lookup_insert_ne in Hj by lia. eauto.
Qed.

Lemma findOrCreate_spec fresh name this aid a this1 :
  assignmentName fresh = name →
  findOrCreate fresh name this = (aid, a, this1) →
  _findAssignment name this1 = Some (aid, a)
  ∧ ((_findAssignment name this = Some (aid, a) ∧ this1 = this)
     ∨ (_findAssignment name this = None ∧ a = fresh
        ∧ aid = length (assignmentStatuses this)
        ∧ this1 = pushAssignment fresh this)).
Proof.
  intros Hname. unfold findOrCreate.
  destruct (_findAssignment name this) as [[i x]|] eqn:Hfind.
  - intros [= <- <- <-]. split; [exact Hfind|]. left. done.
  - intros [= <- <- <-]. split.
    + unfold _findAssignment, pushAssignment; simpl. by apply findByName_push.
    + right. done.
Qed.

Lemma writeStudent_same sid this w :
  heap w !! sid = Some this → writeStudent sid this w = w.
Proof.
  intros H. unfold writeStudent, set_heap. rewrite list_insert_id by done.
  by destruct w.
Qed.

Lemma heap_notifyVia o sid s a w : heap (notifyVia o sid s a w) = heap w.
Proof. unfold notifyVia. by destruct (callable o). Qed.

Lemma heap_setTimeout cb ms w : heap (setTimeout cb ms w) = heap w.
Proof. reflexivity. Qed.

Lemma heap_writeStudent sid s w :
  heap (writeStudent sid s w) = <[sid := s]> (heap w).
Proof. reflexivity. Qed.

(** ** submitAssignment *)

Lemma submitAssignment_guard w sid name this aid a :
  heap w !! sid = Some this →
  _findAssignment name this = Some (aid, a) →
  isSubmitted a = true →
  submitAssignment sid name w = w.
Proof.
  intros Hthis Hfind Hsub. unfold submitAssignment, findOrCreate.
  rewrite Hthis, Hfind, Hsub. by apply writeStudent_same.
Qed.

Lemma submitAssignment_idempotent w sid name :
  submitAssignment sid name (submitAssignment sid name w)
  = submitAssignment sid name w.
Proof.
  remember (submitAssignment sid name w) as w' eqn:Hw'.
  unfold submitAssignment in Hw'.
  destruct (heap w !! sid) as [this|] eqn:Hthis.
  2:{ subst w'. unfold submitAssignment. by rewrite Hthis. }
  destruct (findOrCreate (newAssignment name) name this) as [[aid a] this1] eqn:Hfc.
  apply findOrCreate_spec in Hfc as (Hfind1 & Hcases); [|reflexivity].
  destruct (isSubmitted a) eqn:Hsub.
  - destruct Hcases as [(Hfind & ->)|(_ & -> & _)]; [|discriminate].
    rewrite writeStudent_same in Hw' by done. subst w'.
    by eapply submitAssignment_guard.
  - set (a' := set_status "submitted" (set_isSubmitted true a)) in *.
    set (this2 := writeAssignment aid a' this1) in *.
    eapply (submitAssignment_guard _ sid name this2 aid a').
    + subst w'. rewrite heap_setTimeout. unfold _notifyObserver.
      rewrite heap_notifyVia, heap_writeStudent. apply list_lookup_insert_eq.
      by eapply lookup_lt_Some.
    + unfold _findAssignment, this2, writeAssignment; simpl.
      apply findByName_write with a; [exact Hfind1|].
      apply findByName_Some in Hfind1 as [_ Hn]. exact Hn.
    + reflexivity.
Qed.

(** C3. [submitAssignment(n)] on an assignment that is already submitted
    changes nothing at all: the student and the assignment (flag, status,
    grade) are as before, the console has no new line and no timer was
    armed; hence a second call right after a first one adds no second
    grading event. *)
Theorem submitAssignment_already_submitted_noop :
  (∀ w sid name this aid a,
     heap w !! sid = Some this →
     _findAssignment name this = Some (aid, a) →
     isSubmitted a = true →
     submitAssignment sid name w = w
     ∧ heap (submitAssignment sid name w) !! sid = Some this
     ∧ console (submitAssignment sid name w) = console w
     ∧ timers (submitAssignment sid name w) = timers w)
  ∧ (∀ w sid name,
       submitAssignment sid name (submitAssignment sid name w)
       = submitAssignment sid name w)
  ∧ (∀ w sid name aid,
       pendingGradings sid aid (submitAssignment sid name (submitAssignment sid name w))
       = pendingGradings sid aid (submitAssignment sid name w)).
Proof.
  split; [|split].
  - intros w sid name this aid a Hthis Hfind Hsub.
    rewrite (submitAssignment_guard w sid name this aid a) by done. done.
  - apply submitAssignment_idempotent.
  - intros. by rewrite submitAssignment_idempotent.
Qed.

Lemma submitAssignment_already_submitted_noop_witness :
  submitAssignment 0 "HW1" world_submitted_once = world_submitted_once
  ∧ pendingGradings 0 0 (submitAssignment 0 "HW1" world_submitted_once) = 1%nat.
Proof.
  split.
  - eapply (proj1 submitAssignment_already_submitted_noop
              world_submitted_once 0%nat "HW1"); reflexivity.
  - reflexivity.
Defined.

(** ** startWorking *)



(** ** findOutstandingAssignments *)

Lemma scan_fold name roster : ∀ out any,
  fold_left (scanStudent name) roster (out, any)
  = (out ++ map fullName
       (List.filter
          (λ s, match findByName name (assignmentStatuses s) with
                | Some (_, a) => negb (isCompleted (status a))
                | None => false
                end) roster),
     any || existsb
       (λ s, match findByName name (assignmentStatuses s) with
             | Some (_, a) => isCompleted (status a)
             | None => false
             end) roster).
Proof.
  induction roster as [|s roster IH]; intros out any; simpl.
  - by rewrite app_nil_r, orb_false_r.
  - destruct (findByName name (assignmentStatuses s)) as [[i a]|] eqn:Hf.
    + assert (Hneg :
        bool_decide (status a ≠ "submitted") && bool_decide (status a ≠ "pass")
        && bool_decide (status a ≠ "fail") = negb (isCompleted (status a))).
      { unfold isCompleted. repeat case_bool_decide; done. }
      rewrite Hneg, IH.
      destruct (isCompleted (status a)); simpl.
      * by rewrite orb_true_r.
      * by rewrite <- app_assoc.
    + apply IH.
Qed.

Lemma fallback_fold roster : ∀ acc,
  fold_left scanFallback roster acc
  = acc ++ map fullName (List.filter hasInFlight roster).
Proof.
  induction roster as [|s roster IH]; intros acc; simpl.
  - by rewrite app_nil_r.
  - rewrite IH. unfold scanFallback, hasInFlight, isInFlight.
    destruct (existsb _ (assignmentStatuses s)); simpl; [|done].
    by rewrite <- app_assoc.
Qed.

Lemma first_named_is_any p name l :
  NoDup (map assignmentName l) →
  match findByName name l with
  | Some (_, a) => p (status a)
  | None => false
  end
  = existsb (λ a, bool_decide (assignmentName a = name) && p (status a)) l.
Proof.
  unfold findByName. induction l as [|x l IH]; intros Hnd; [reflexivity|].
  simpl in Hnd. apply NoDup_cons in Hnd as [Hx Hnd].
  cbn. destruct (decide (assignmentName x = name)) as [Heq|Hne].
  - rewrite (bool_decide_eq_true_2 _ Heq). simpl.
    assert (Hrest : existsb
      (λ a, bool_decide (assignmentName a = name) && p (status a)) l = false).
    { apply not_true_is_false. intros Hex. apply existsb_exists in Hex as (y & Hy & Hyp).
      apply andb_true_iff in Hyp as [Hyn _]. apply bool_decide_eq_true in Hyn.
      apply Hx. rewrite Heq, <- Hyn. apply list_elem_of_fmap.
      exists y. split; [done|]. by apply list_elem_of_In. }
    rewrite Hrest. by rewrite orb_false_r.
  - rewrite (bool_decide_eq_false_2 _ Hne). simpl.
    rewrite <- (IH Hnd). destruct (list_find _ l) as [[i a]|]; reflexivity.
Qed.

(** C1. [findOutstandingAssignments(n)] is the two-mode query: when some
    student of the roster has an assignment called [n] that is submitted,
    passed or failed, the names of the students that have an assignment
    called [n] in any other status; otherwise the names of the students
    that have some assignment released or being worked on.  Assignment
    names are unique within a student. *)
Theorem findOutstandingAssignments_two_modes (w : World) (cid : nat)
    (this : ClassList) (name : string) :
  classLists w !! cid = Some this →
  Forall uniqueNames (deref w (students this)) →
  findOutstandingAssignments cid name w
  = outstandingSpec (deref w (students this)) name.
Proof.
  intros Hthis Huniq. unfold findOutstandingAssignments. rewrite Hthis.
  unfold findOutstanding, outstandingSpec.
  rewrite scan_fold, fallback_fold. simpl.
  set (roster := deref w (students this)) in *.
  assert (Hany : existsb
     (λ s, match findByName name (assignmentStatuses s) with
           | Some (_, a) => isCompleted (status a)
           | None => false
           end) roster = existsb (hasNamed isCompleted name) roster).
  { clear -Huniq. induction Huniq as [|s l Hs Hl IH]; [reflexivity|].
    simpl. rewrite IH. f_equal.
    apply (first_named_is_any isCompleted). exact Hs. }
  assert (Hout : List.filter
     (λ s, match findByName name (assignmentStatuses s) with
           | Some (_, a) => negb (isCompleted (status a))
           | None => false
           end) roster
     = List.filter (hasNamed (λ st, negb (isCompleted st)) name) roster).
  { clear -Huniq. induction Huniq as [|s l Hs Hl IH]; [reflexivity|].
    simpl. rewrite IH.
    rewrite (first_named_is_any (λ st, negb (isCompleted st)) name _ Hs).
    reflexivity. }
  rewrite Hany, Hout. reflexivity.
Qed.

(** The two findOutstandingAssignments examples of the specification: with
    nobody having completed HW1 the fallback lists A and B; once A has
    submitted HW1 the primary mode lists nobody. *)
Lemma findOutstandingAssignments_two_modes_witness :
  findOutstandingAssignments 0 "HW1" world_roster = ["A"; "B"]
  ∧ findOutstandingAssignments 0 "HW1"
      (exec (OpSubmitAssignment 0 "HW1") world_roster) = [].
Proof.
  split.
  - rewrite (findOutstandingAssignments_two_modes world_roster 0 class_roster "HW1").
    + reflexivity.
    + reflexivity.
    + repeat constructor; compute_done.
  - rewrite (findOutstandingAssignments_two_modes
               (exec (OpSubmitAssignment 0 "HW1") world_roster) 0 class_roster "HW1").
    + reflexivity.
    + reflexivity.
    + repeat constructor; compute_done.
Defined.

(** ** Every method moves the heap by [heapStep]s *)

Lemma heap_notifyObserver sid s a w : heap (_notifyObserver sid s a w) = heap w.
Proof. apply heap_notifyVia. Qed.

Lemma write_after_findOrCreate fresh name this aid a this1 a' :
  assignmentName fresh = name →
  findOrCreate fresh name this = (aid, a, this1) →
  (a = a' ∨ assignmentWrite a a' ∨ _findAssignment name this = None) →
  (a = fresh → created name a') →
  arrayStep (assignmentStatuses this)
    (assignmentStatuses (writeAssignment aid a' this1)).
Proof.
  intros Hname Hfc Hw Hc.
  apply findOrCreate_spec in Hfc as (Hfind1 & Hcases); [|exact Hname].
  destruct Hcases as [(Hfind & ->)|(Hfind & -> & -> & ->)].
  - apply findByName_Some in Hfind as Hl. destruct Hl as [Hl _].
    destruct Hw as [<-|[Hw|Hw]].
    + simpl. rewrite list_insert_id by done. constructor.
    + simpl. by eapply as_write.
    + rewrite Hw in Hfind. discriminate.
  - simpl. rewrite insert_app_r_alt by lia. rewrite Nat.sub_diag. simpl.
    apply as_push with name; [exact Hfind|]. by apply Hc.
Qed.

Lemma updateAssignmentStatus_heapStep sid name grade w :
  rtc heapStep (heap w) (heap (updateAssignmentStatus sid name grade w)).
Proof.
  unfold updateAssignmentStatus.
  destruct (heap w !! sid) as [this|] eqn:Hthis; [|constructor].
  destruct (findOrCreate _ name this) as [[aid a] this1] eqn:Hfc.
  rewrite heap_notifyObserver, heap_writeStudent.
  apply rtc_once. apply hs_student with this; [exact Hthis|].
  eapply write_after_findOrCreate; [|exact Hfc| |]; [reflexivity| |].
  - destruct grade; [right; left; constructor|by left].
  - intros ->. destruct grade; constructor.
Qed.

Lemma startWorking_heapStep sid name w :
  rtc heapStep (heap w) (heap (startWorking sid name w)).
Proof.
  unfold startWorking.
  destruct (heap w !! sid) as [this|] eqn:Hthis; [|constructor].
  destruct (findOrCreate _ name this) as [[aid a] this1] eqn:Hfc.
  rewrite heap_setTimeout, heap_notifyObserver, heap_writeStudent.
  apply rtc_once. apply hs_student with this; [exact Hthis|].
  eapply write_after_findOrCreate; [|exact Hfc| |]; [reflexivity| |].
  - right; left; constructor.
  - intros ->. constructor.
Qed.

Lemma submitAssignment_heapStep sid name w :
  rtc heapStep (heap w) (heap (submitAssignment sid name w)).
Proof.
  unfold submitAssignment.
  destruct (heap w !! sid) as [this|] eqn:Hthis; [|constructor].
  destruct (findOrCreate _ name this) as [[aid a] this1] eqn:Hfc.
  destruct (isSubmitted a) eqn:Hsub.
  - apply findOrCreate_spec in Hfc as (_ & [(_ & ->)|(_ & -> & _)]);
      [|discriminate|reflexivity].
    by rewrite writeStudent_same.
  - rewrite heap_setTimeout, heap_notifyObserver, heap_writeStudent.
    apply rtc_once. apply hs_student with this; [exact Hthis|].
    eapply write_after_findOrCreate; [|exact Hfc| |]; [reflexivity| |].
    + right; left. by constructor.
    + intros ->. constructor.
Qed.

Lemma remindStudent_heapStep observer name w sid :
  rtc heapStep (heap w) (heap (remindStudent observer name w sid)).
Proof.
  unfold remindStudent.
  destruct (heap w !! sid) as [student|] eqn:Hs; [|constructor].
  destruct (findByName name (assignmentStatuses student)) as [[aid a]|] eqn:Hf;
    [|constructor].
  destruct (bool_decide (status a = "pass") || bool_decide (status a = "fail"))
    eqn:Hterm; [constructor|].
  eapply rtc_l; [|apply submitAssignment_heapStep].
  rewrite heap_notifyVia, heap_writeStudent.
  apply hs_student with student; [exact Hs|]. simpl.
  apply findByName_Some in Hf as [Hl _].
  eapply as_write; [exact Hl|]. constructor.
  apply orb_false_iff in Hterm as [Hp Hfl].
  apply bool_decide_eq_false in Hp, Hfl. intros [?|?]; done.
Qed.

Lemma fold_heapStep {A} (f : World → A → World) (l : list A) :
  (∀ w x, rtc heapStep (heap w) (heap (f w x))) →
  ∀ w, rtc heapStep (heap w) (heap (fold_left f l w)).
Proof.
  intros Hf. induction l as [|x l IH]; intros w; simpl; [constructor|].
  etrans; [apply Hf|apply IH].
Qed.

Lemma sendReminder_heapStep cid name w :
  rtc heapStep (heap w) (heap (sendReminder cid name w)).
Proof.
  unfold sendReminder. destruct (classLists w !! cid); [|constructor].
  apply fold_heapStep. intros. apply remindStudent_heapStep.
Qed.

Lemma runCallback_heapStep draw cb w :
  rtc heapStep (heap w) (heap (runCallback draw cb w)).
Proof.
  destruct cb as [sid aid name|sid aid|cid name pid]; simpl.
  - destruct (heap w !! sid) as [this|]; [|constructor].
    destruct (assignmentStatuses this !! aid) as [a|]; [|constructor].
    destruct (_ && _); [apply submitAssignment_heapStep|constructor].
  - destruct (heap w !! sid) as [this|] eqn:Hthis; [|constructor].
    destruct (assignmentStatuses this !! aid) as [a|] eqn:Ha; [|constructor].
    rewrite heap_notifyObserver, heap_writeStudent.
    apply rtc_once. apply hs_student with this; [exact Hthis|].
    rewrite assignmentStatuses_getGrade.
    simpl. eapply as_write; [exact Ha|]. constructor.
  - destruct (classLists w !! cid); [|constructor].
    unfold resolve. simpl.
    apply (fold_heapStep (λ w sid, updateAssignmentStatus sid name None w)).
    intros. apply updateAssignmentStatus_heapStep.
Qed.

Lemma alterStudent_heapStep sid f w :
  (∀ s, assignmentStatuses (f s) = assignmentStatuses s) →
  rtc heapStep (heap w) (heap (alterStudent sid f w)).
Proof.
  intros Hf. unfold alterStudent; simpl.
  destruct (heap w !! sid) as [this|] eqn:Hthis.
  - assert (Halt : alter f sid (heap w) = <[sid := f this]> (heap w)).
    { apply list_eq. intros j. rewrite list_lookup_alter.
      destruct (decide (sid = j)) as [<-|Hne].
      - rewrite Hthis. simpl. symmetry. apply list_lookup_insert_eq.
        by eapply lookup_lt_Some.
      - by rewrite list_lookup_insert_ne. }
    rewrite Halt. apply rtc_once. apply hs_student with this; [exact Hthis|].
    rewrite Hf. constructor.
  - assert (Halt : alter f sid (heap w) = heap w).
    { apply list_eq. intros j. rewrite list_lookup_alter.
      destruct (decide (sid = j)) as [<-|Hne]; [by rewrite Hthis|done]. }
    rewrite Halt. constructor.
Qed.

Lemma heap_releaseAssignmentsParallel cid names : ∀ acc,
  heap (snd (fold_left (armRelease cid) names acc)) = heap (snd acc).
Proof.
  induction names as [|n names IH]; intros [ps w]; simpl; [done|].
  rewrite IH. reflexivity.
Qed.

Lemma fire_heapStep i draw w : rtc heapStep (heap w) (heap (fire i draw w)).
Proof.
  unfold fire. destruct (timers w !! i); [|constructor].
  apply (runCallback_heapStep draw (callback t)
           (set_timers (delete i (timers w)) w)).
Qed.

(** An operation either allocates a student, with no assignment yet, or
    moves the heap by steps on the students already there. *)
Lemma exec_heapStep op w :
  rtc heapStep (heap w) (heap (exec op w))
  ∨ ∃ s, assignmentStatuses s = [] ∧ heap (exec op w) = heap w ++ [s].
Proof.
  destruct op; simpl.
  - right. eexists. split; [|reflexivity]. reflexivity.
  - left. by apply alterStudent_heapStep.
  - left. by apply alterStudent_heapStep.
  - left. apply updateAssignmentStatus_heapStep.
  - left. apply startWorking_heapStep.
  - left. apply submitAssignment_heapStep.
  - left. apply alterStudent_heapStep. intros s. apply assignmentStatuses_getGrade.
  - left. constructor.
  - left. unfold addStudent. destruct (classLists w !! cid); [|constructor].
    destruct (heap w !! sid); constructor.
  - left. unfold removeStudent. destruct (classLists w !! cid); constructor.
  - left. unfold releaseAssignmentsParallel.
    rewrite heap_releaseAssignmentsParallel. constructor.
  - left. apply sendReminder_heapStep.
  - left. apply fire_heapStep.
Qed.

(** ** Invariants of the assignments of every student *)

Section ArrayInvariant.
Variable I : list Assignment → Prop.
Hypothesis I_nil : I [].
Hypothesis I_step : ∀ l l', arrayStep l l' → I l → I l'.

Lemma heapStep_invariant h h' :
  heapStep h h' →
  Forall (λ s, I (assignmentStatuses s)) h →
  Forall (λ s, I (assignmentStatuses s)) h'.
Proof.
  intros Hstep Hall. destruct Hstep as [h sid this this' Hthis Harr].
  apply Forall_insert; [exact Hall|].
  eapply I_step; [exact Harr|].
  rewrite Forall_lookup in Hall. by apply (Hall sid).
Qed.

Lemma heapSteps_invariant h h' :
  rtc heapStep h h' →
  Forall (λ s, I (assignmentStatuses s)) h →
  Forall (λ s, I (assignmentStatuses s)) h'.
Proof.
  induction 1 as [|h1 h2 h3 Hstep _ IH]; [done|].
  intros Hall. apply IH. by eapply heapStep_invariant.
Qed.

Lemma exec_invariant op w :
  Forall (λ s, I (assignmentStatuses s)) (heap w) →
  Forall (λ s, I (assignmentStatuses s)) (heap (exec op w)).
Proof.
  intros Hall. destruct (exec_heapStep op w) as [Hsteps|(s & Hs & ->)].
  - by eapply heapSteps_invariant.
  - apply Forall_app. split; [exact Hall|].
    constructor; [|constructor]. by rewrite Hs.
Qed.

Lemma reachable_invariant w :
  reachable w → Forall (λ s, I (assignmentStatuses s)) (heap w).
Proof.
  induction 1 as [|w op _ IH _]; [constructor|]. by apply exec_invariant.
Qed.
End ArrayInvariant.

Lemma run_snoc ops op w : run (ops ++ [op]) w = exec op (run ops w).
Proof. unfold run. by rewrite fold_left_app. Qed.

Lemma reachable_run ops :
  Forall allowed ops → reachable (run ops initialWorld).
Proof.
  induction ops as [|op ops IH] using rev_ind; intros Hall.
  - constructor.
  - apply Forall_app in Hall as [Hops Hop]. rewrite run_snoc.
    apply Forall_cons in Hop as [Hop _].
    constructor; [by apply IH|exact Hop].
Qed.

Lemma assignmentWrite_name a a' :
  assignmentWrite a a' → assignmentName a' = assignmentName a.
Proof. by destruct 1. Qed.

Lemma created_name name a : created name a → assignmentName a = name.
Proof. by destruct 1. Qed.

Lemma arrayStep_names l l' :
  arrayStep l l' →
  ∃ extra, map assignmentName l' = map assignmentName l ++ extra.
Proof.
  destruct 1 as [l|l aid a a' Hl Hw|l name a' Hnone Hc].
  - exists []. by rewrite app_nil_r.
  - exists []. rewrite app_nil_r.
    change (assignmentName <$> <[aid:=a']> l = assignmentName <$> l).
    rewrite list_fmap_insert. apply list_insert_id.
    rewrite list_lookup_fmap, Hl. simpl.
    by rewrite (assignmentWrite_name _ _ Hw).
  - exists [assignmentName a']. by rewrite map_app.
Qed.

Lemma gradedWhenTerminal_step l l' :
  arrayStep l l' → gradedWhenTerminal l → gradedWhenTerminal l'.
Proof.
  unfold gradedWhenTerminal.
  destruct 1 as [l|l aid a a' Hl Hw|l name a' Hnone Hc]; intros Hall.
  - exact Hall.
  - apply Forall_insert; [exact Hall|].
    destruct Hw; simpl; try (intros [?|?]; discriminate). by eexists.
  - apply Forall_app. split; [exact Hall|]. constructor; [|constructor].
    destruct Hc; simpl; try (intros [?|?]; discriminate). by eexists.
Qed.



Lemma uniqueNames_step l l' :
  arrayStep l l' →
  NoDup (map assignmentName l) → NoDup (map assignmentName l').
Proof.
  destruct 1 as [l|l aid a a' Hl Hw|l name a' Hnone Hc]; intros Hnd.
  - exact Hnd.
  - destruct (arrayStep_names l (<[aid:=a']> l)) as [extra Hex];
      [by eapply as_write|].
    assert (Hlen : length (map assignmentName (<[aid:=a']> l))
                   = length (map assignmentName l)).
    { by rewrite !length_map, length_insert. }
    rewrite Hex, length_app in Hlen.
    destruct extra; [|simpl in Hlen; lia].
    by rewrite Hex, app_nil_r.
  - rewrite map_app. apply NoDup_app. split; [exact Hnd|]. split.
    + intros x Hx Hx'. simpl in Hx'. apply list_elem_of_singleton in Hx'.
      subst x. rewrite (created_name _ _ Hc) in Hx.
      by apply findByName_None in Hnone.
    + simpl. apply NoDup_singleton.
Qed.

(** Assignment names stay unique within every student. *)
Lemma reachable_uniqueNames w : reachable w → Forall uniqueNames (heap w).
Proof.
  apply (reachable_invariant (λ l, NoDup (map assignmentName l))).
  - constructor.
  - apply uniqueNames_step.
Qed.



Lemma reachable_world_graded : reachable world_graded.
Proof.
  apply reachable_run. repeat constructor; simpl; lia.
Qed.


(** That state, in decimal notation and against the reference arithmetic:
    the cached overall grade is the number written 50.666666666666664, and
    it is what binary64 addition and division return for ((0 + 50) + 51 +
    51) / 3. *)
Lemma overallGrade_thirds :
  heap world_thirds !! 0%nat = Some ada_thirds
  ∧ overallGrade ada_thirds
    = Some (round53 (50666666666666664 # 1000000000000000))
  ∧ valueOf
      (SpecFloat.SFdiv 53 1024
         (SpecFloat.SFadd 53 1024
            (SpecFloat.SFadd 53 1024
               (SpecFloat.SFadd 53 1024 (ofInteger 0) (ofInteger 50))
               (ofInteger 51))
            (ofInteger 51))
         (ofInteger 3))
    = overallGrade ada_thirds.
Proof. repeat split; vm_compute; reflexivity. Qed.


(** ** Grade and status *)

(** C4 (as amended). In every state a program over the module can reach,
    an assignment whose status is pass or fail has a grade, and every
    operation preserves this.  The converse is not maintained. *)
Theorem terminal_status_has_grade :
  (∀ w op,
     Forall (λ s, gradedWhenTerminal (assignmentStatuses s)) (heap w) →
     Forall (λ s, gradedWhenTerminal (assignmentStatuses s)) (heap (exec op w)))
  ∧ (∀ w sid this aid a,
       reachable w → heap w !! sid = Some this →
       assignmentStatuses this !! aid = Some a →
       isTerminal (status a) → is_Some (_grade a)).
Proof.
  split.
  - intros w op.
    apply (exec_invariant gradedWhenTerminal (Forall_nil_2 _)
             gradedWhenTerminal_step).
  - intros w sid this aid a Hr Hthis Ha.
    pose proof (reachable_invariant gradedWhenTerminal (Forall_nil_2 _)
                  gradedWhenTerminal_step w Hr) as Hall.
    rewrite Forall_lookup in Hall. specialize (Hall sid this Hthis).
    unfold gradedWhenTerminal in Hall.
    rewrite Forall_lookup in Hall. by apply (Hall aid).
Qed.

Lemma terminal_status_has_grade_witness :
  is_Some (_grade (mkAssignment "HW1" "pass" (Some 70%Q) true)).
Proof.
  apply (proj2 terminal_status_has_grade world_graded 0%nat ada_graded 0%nat
           (mkAssignment "HW1" "pass" (Some 70%Q) true)
           reachable_world_graded eq_refl eq_refl).
  left. reflexivity.
Defined.

(** C4 (as stated) fails: after grading, [startWorking] puts the status back
    to working while the grade stays. *)
Lemma graded_but_working :
  ¬ (∀ w sid this aid a,
       reachable w → heap w !! sid = Some this →
       assignmentStatuses this !! aid = Some a →
       (is_Some (_grade a) ↔ isTerminal (status a))).
Proof.
  intros Hclaim.
  assert (Hr : reachable world_reworked).
  { apply reachable_step; [apply reachable_world_graded|exact I]. }
  destruct (Hclaim world_reworked 0%nat
              (mkStudent "Ada" "ada@example.org"
                 [mkAssignment "HW1" "working" (Some 70%Q) true] (Some (70 / 1)%Q)
                 (Some (mkObserver true)))
              0%nat (mkAssignment "HW1" "working" (Some 70%Q) true)
              Hr eq_refl eq_refl) as [Hto _].
  destruct Hto as [Hp|Hf]; [by eexists|discriminate|discriminate].
Qed.

(** ** The cached overall grade *)

Lemma getGrade_fixpoint this :
  fst (getGrade (snd (getGrade this))) = fst (getGrade this).
Proof. unfold getGrade. destruct (decide _); simpl; by case_decide. Qed.

(** The grading event refreshes the cache: afterwards [overallGrade] is what
    [getGrade()] returns. *)
Lemma grading_refreshes_overallGrade w sid aid draw this a :
  heap w !! sid = Some this →
  assignmentStatuses this !! aid = Some a →
  ∃ this',
    heap (runCallback draw (GradeSubmission sid aid) w) !! sid = Some this'
    ∧ assignmentStatuses this' !! aid = Some (setGrade (inject_Z draw) a)
    ∧ overallGrade this' = fst (getGrade this').
Proof.
  intros Hthis Ha. simpl. rewrite Hthis, Ha.
  eexists. split; [|split].
  - rewrite heap_notifyObserver, heap_writeStudent.
    apply list_lookup_insert_eq. by eapply lookup_lt_Some.
  - rewrite assignmentStatuses_getGrade. simpl.
    apply list_lookup_insert_eq. by eapply lookup_lt_Some.
  - rewrite getGrade_fixpoint. unfold getGrade.
    destruct (decide _); reflexivity.
Qed.

(** [updateAssignmentStatus] never writes [overallGrade]. *)
Lemma updateAssignmentStatus_keeps_overallGrade w sid name grade this :
  heap w !! sid = Some this →
  ∃ this',
    heap (updateAssignmentStatus sid name grade w) !! sid = Some this'
    ∧ overallGrade this' = overallGrade this.
Proof.
  intros Hthis. unfold updateAssignmentStatus. rewrite Hthis.
  destruct (findOrCreate _ name this) as [[aid a] this1] eqn:Hfc.
  eexists. split.
  - rewrite heap_notifyObserver, heap_writeStudent.
    apply list_lookup_insert_eq. by eapply lookup_lt_Some.
  - unfold findOrCreate in Hfc.
    destruct (_findAssignment name this) as [[i x]|]; by injection Hfc as <- <- <-.
Qed.

(** C5 at its failing input: [updateAssignmentStatus("HW1", 80)] on a new
    student stores the grade and leaves the cache at null, where the mean
    of the graded assignments is 80. *)
Theorem updateAssignmentStatus_stale_overallGrade :
  ∃ this,
    heap world_update_graded !! 0%nat = Some this
    ∧ gradesOf this = [80%Q]
    ∧ overallGrade this = None
    ∧ ∃ average, fst (getGrade this) = Some average ∧ (average == 80)%Q.
Proof.
  eexists. split; [reflexivity|]. split; [reflexivity|]. split; [reflexivity|].
  eexists. split; reflexivity.
Qed.

(** ** sendReminder *)

Lemma remindStudent_eligible observer name w sid student aid a :
  heap w !! sid = Some student →
  findByName name (assignmentStatuses student) = Some (aid, a) →
  ¬ isTerminal (status a) →
  remindStudent observer name w sid
  = let reminded := set_status "final reminder" a in
    let student' := writeAssignment aid reminded student in
    submitAssignment sid name
      (notifyVia observer sid student' reminded (writeStudent sid student' w)).
Proof.
  intros Hs Hf Hnt. unfold remindStudent. rewrite Hs, Hf.
  destruct (bool_decide (status a = "pass") || bool_decide (status a = "fail"))
    eqn:Hterm; [|reflexivity].
  exfalso. apply Hnt. apply orb_true_iff in Hterm as [H|H];
    apply bool_decide_eq_true in H; [by left|by right].
Qed.

Lemma extendWorld_same w sid s :
  heap w !! sid = Some s → extendWorld w sid s [] [] = w.
Proof.
  intros H. unfold extendWorld. rewrite list_insert_id by done.
  rewrite !app_nil_r. by destruct w.
Qed.

Lemma remindStudent_outcome observer name w sid student :
  heap w !! sid = Some student →
  remindStudent observer name w sid
  = match reminderOutcome observer name sid student with
    | Some (s', lines, armed) => extendWorld w sid s' lines armed
    | None => w
    end.
Proof.
  intros Hs. unfold remindStudent, reminderOutcome. rewrite Hs.
  destruct (findByName name (assignmentStatuses student)) as [[aid a]|] eqn:Hf;
    [|reflexivity].
  destruct (bool_decide (status a = "pass") || bool_decide (status a = "fail"));
    [reflexivity|].
  pose proof (findByName_Some _ _ _ _ Hf) as [Hl Hname].
  assert (Hlt : (sid < length (heap w))%nat) by by eapply lookup_lt_Some.
  unfold submitAssignment.
  rewrite heap_notifyVia, heap_writeStudent, list_lookup_insert_eq by exact Hlt.
  unfold findOrCreate, _findAssignment. simpl.
  rewrite (findByName_write name _ aid a (set_status "final reminder" a) Hf Hname).
  simpl. destruct (isSubmitted a) eqn:Hsub.
  - unfold notifyVia, notify, console_log, writeStudent, extendWorld,
      set_heap, set_console.
    destruct (callable observer); simpl;
      rewrite ?list_insert_insert_eq, ?app_nil_r; reflexivity.
  - unfold _notifyObserver, notifyVia, notify, console_log, writeStudent,
      setTimeout, extendWorld, writeAssignment, set_assignmentStatuses,
      set_heap, set_console, set_timers. simpl.
    destruct (callable observer), (callable (_observer student)); simpl;
      rewrite ?list_insert_insert_eq, ?app_nil_r, <- ?app_assoc; reflexivity.
Qed.

Lemma notificationsFor_app sid c c' :
  notificationsFor sid (c ++ c')
  = notificationsFor sid c ++ notificationsFor sid c'.
Proof. apply omap_app. Qed.

Lemma timersFor_app sid t t' :
  timersFor sid (t ++ t') = timersFor sid t ++ timersFor sid t'.
Proof. apply List.filter_app. Qed.

Lemma notificationsFor_other sid sid' lines :
  sid' ≠ sid →
  Forall (λ o, ∃ m, o = Notification sid' m) lines →
  notificationsFor sid lines = [].
Proof.
  intros Hne. induction 1 as [|o lines [m ->] _ IH]; [reflexivity|].
  unfold notificationsFor in *. cbn. by rewrite decide_False.
Qed.

Lemma timersFor_other sid sid' armed :
  sid' ≠ sid →
  Forall (λ t, concerns sid' (callback t) = true) armed →
  timersFor sid armed = [].
Proof.
  intros Hne. induction 1 as [|t armed Ht _ IH]; [reflexivity|].
  unfold timersFor in *. simpl. rewrite IH.
  destruct (callback t); simpl in *; try discriminate;
    apply bool_decide_eq_true in Ht; subst; by rewrite bool_decide_eq_false_2.
Qed.

Lemma timersFor_own sid armed :
  Forall (λ t, concerns sid (callback t) = true) armed →
  timersFor sid armed = armed.
Proof.
  induction 1 as [|t armed Ht _ IH]; [reflexivity|].
  unfold timersFor in *. simpl. by rewrite Ht, IH.
Qed.

Lemma reminderOutcome_own observer name sid student s' lines armed :
  reminderOutcome observer name sid student = Some (s', lines, armed) →
  Forall (λ o, ∃ m, o = Notification sid m) lines
  ∧ Forall (λ t, concerns sid (callback t) = true) armed.
Proof.
  unfold reminderOutcome.
  destruct (findByName name (assignmentStatuses student)) as [[aid a]|];
    [|discriminate].
  destruct (_ || _); [discriminate|].
  destruct (isSubmitted a); intros [= <- <- <-];
    destruct (callable observer), (callable (_observer student)); simpl;
    (split; repeat constructor; try by eexists);
    by apply bool_decide_eq_true.
Qed.

Lemma reminderOutcome_None observer name sid student :
  reminderOutcome observer name sid student = None ↔ passedOver name student.
Proof.
  unfold reminderOutcome, passedOver, isTerminal.
  destruct (findByName name (assignmentStatuses student)) as [[aid a]|].
  - destruct (bool_decide (status a = "pass") || bool_decide (status a = "fail"))
      eqn:Hterm.
    + split; [|done]. intros _. right. exists aid, a. split; [done|].
      apply orb_true_iff in Hterm as [H|H]; apply bool_decide_eq_true in H; tauto.
    + apply orb_false_iff in Hterm as [Hp Hf].
      apply bool_decide_eq_false in Hp, Hf.
      split.
      * destruct (isSubmitted a); discriminate.
      * intros [?|(aid' & a' & [= <- <-] & [?|?])]; done.
  - split; [by left|done].
Qed.

Lemma remindStudent_other observer name w sid' sid :
  sid' ≠ sid →
  viewOf sid (remindStudent observer name w sid') = viewOf sid w.
Proof.
  intros Hne. destruct (heap w !! sid') as [student|] eqn:Hs.
  2:{ unfold remindStudent. by rewrite Hs. }
  rewrite (remindStudent_outcome _ _ _ _ _ Hs).
  destruct (reminderOutcome observer name sid' student)
    as [[[s' lines] armed]|] eqn:Hout; [|reflexivity].
  apply reminderOutcome_own in Hout as [Hlines Harmed].
  unfold viewOf, extendWorld; simpl.
  rewrite list_lookup_insert_ne by done.
  rewrite notificationsFor_app, timersFor_app.
  rewrite (notificationsFor_other sid sid' lines Hne Hlines).
  rewrite (timersFor_other sid sid' armed Hne Harmed).
  by rewrite !app_nil_r.
Qed.

Lemma remind_fold_other observer name sid roster : ∀ w,
  sid ∉ roster →
  viewOf sid (fold_left (remindStudent observer name) roster w) = viewOf sid w.
Proof.
  induction roster as [|x roster IH]; intros w Hnin; [reflexivity|].
  simpl. apply not_elem_of_cons in Hnin as [Hne Hnin].
  rewrite IH by exact Hnin. apply remindStudent_other. congruence.
Qed.

Lemma remind_fold_passedOver observer name sid student roster : ∀ w,
  heap w !! sid = Some student → passedOver name student →
  viewOf sid (fold_left (remindStudent observer name) roster w) = viewOf sid w.
Proof.
  induction roster as [|x roster IH]; intros w Hs Hpo; [reflexivity|].
  simpl. destruct (decide (x = sid)) as [->|Hne].
  - rewrite (remindStudent_outcome _ _ _ _ _ Hs).
    apply (reminderOutcome_None observer name sid) in Hpo as Hnone.
    rewrite Hnone. by apply IH.
  - pose proof (remindStudent_other observer name w x sid Hne) as Hview.
    rewrite IH; [exact Hview| |exact Hpo].
    injection Hview as Hh _ _. by rewrite Hh.
Qed.

Lemma remind_fold_once observer name sid student s' lines armed roster : ∀ w,
  NoDup roster → sid ∈ roster →
  heap w !! sid = Some student →
  reminderOutcome observer name sid student = Some (s', lines, armed) →
  viewOf sid (fold_left (remindStudent observer name) roster w)
  = (Some s', notificationsFor sid (console w) ++ notificationsFor sid lines,
     timersFor sid (timers w) ++ armed).
Proof.
  induction roster as [|x roster IH]; intros w Hnd Hin Hs Hout.
  - by apply elem_of_nil in Hin.
  - apply NoDup_cons in Hnd as [Hx Hnd]. simpl.
    destruct (decide (x = sid)) as [->|Hne].
    + rewrite remind_fold_other by exact Hx.
      rewrite (remindStudent_outcome _ _ _ _ _ Hs), Hout.
      unfold viewOf, extendWorld; simpl.
      rewrite list_lookup_insert_eq by by eapply lookup_lt_Some.
      rewrite notificationsFor_app, timersFor_app.
      apply reminderOutcome_own in Hout as [_ Harmed].
      by rewrite (timersFor_own sid armed Harmed).
    + apply elem_of_cons in Hin as [->|Hin]; [done|].
      pose proof (remindStudent_other observer name w x sid Hne) as Hview.
      injection Hview as Hh Hc Ht.
      rewrite (IH _ Hnd Hin); [by rewrite Hc, Ht| |exact Hout].
      by rewrite Hh.
Qed.

(** C7. [sendReminder(n)] visits the roster in order.  A student without
    an assignment called [n], or whose assignment is passed or failed, is
    left as it is, with no line printed and no timer armed for it.  For any
    other student the round sets the status to final reminder, notifies the
    class list's observer once, and then calls [submitAssignment(n)] on the
    student; with each student once on the roster, the student ends as the
    reminder transition says. *)
Theorem sendReminder_per_student (w : World) (cid : nat) (this : ClassList)
    (name : string) :
  classLists w !! cid = Some this →
  let observer := cl_observer this in
  let w' := sendReminder cid name w in
  w' = fold_left (remindStudent observer name) (students this) w
  ∧ (∀ v sid student,
       heap v !! sid = Some student → passedOver name student →
       remindStudent observer name v sid = v)
  ∧ (∀ v sid student aid a,
       heap v !! sid = Some student →
       findByName name (assignmentStatuses student) = Some (aid, a) →
       ¬ isTerminal (status a) →
       let reminded := set_status "final reminder" a in
       let student' := writeAssignment aid reminded student in
       let v1 := writeStudent sid student' v in
       let v2 := notifyVia observer sid student' reminded v1 in
       remindStudent observer name v sid = submitAssignment sid name v2
       ∧ heap v2 !! sid = Some student'
       ∧ console v2
         = console v
           ++ (if callable observer
               then [Notification sid
                       (notifyMessage (fullName student) name "final reminder")]
               else [])
       ∧ timers v2 = timers v)
  ∧ (∀ sid student,
       heap w !! sid = Some student → passedOver name student →
       viewOf sid w' = viewOf sid w)
  ∧ (NoDup (students this) →
     ∀ sid student s' lines armed,
       sid ∈ students this → heap w !! sid = Some student →
       reminderOutcome observer name sid student = Some (s', lines, armed) →
       viewOf sid w'
       = (Some s', notificationsFor sid (console w) ++ notificationsFor sid lines,
          timersFor sid (timers w) ++ armed)).
Proof.
  intros Hthis observer w'.
  assert (Hw' : w' = fold_left (remindStudent observer name) (students this) w).
  { unfold w', sendReminder. by rewrite Hthis. }
  split; [exact Hw'|]. split; [|split; [|split]].
  - intros v sid student Hs Hpo.
    rewrite (remindStudent_outcome _ _ _ _ _ Hs).
    apply (reminderOutcome_None observer name sid) in Hpo. by rewrite Hpo.
  - intros v sid student aid a Hs Hf Hnt reminded student' v1 v2.
    split; [by apply remindStudent_eligible|].
    split.
    { unfold v2, v1. rewrite heap_notifyVia, heap_writeStudent.
      apply list_lookup_insert_eq. by eapply lookup_lt_Some. }
    apply findByName_Some in Hf as [_ Hname].
    unfold v2, v1, notifyVia, notify, console_log.
    destruct (callable observer); simpl; rewrite ?Hname, ?app_nil_r; done.
  - intros sid student Hs Hpo. rewrite Hw'.
    by eapply remind_fold_passedOver.
  - intros Hnd sid student s' lines armed Hin Hs Hout. rewrite Hw'.
    by eapply remind_fold_once.
Qed.

(** A reminder for HW2: A has passed it and is passed over; B, who has no
    observer of its own, is reminded through the class list's observer and
    submitted. *)
Lemma sendReminder_per_student_witness :
  viewOf 0 (sendReminder 0 "HW2" world_reminded) = viewOf 0 world_reminded
  ∧ viewOf 1 (sendReminder 0 "HW2" world_reminded)
    = (Some (mkStudent "B" "b@example.org"
               [mkAssignment "HW2" "submitted" None true] None None),
       [notifyMessage "B" "HW2" "final reminder"],
       [mkTimer (GradeSubmission 1 0) 500]).
Proof.
  destruct (sendReminder_per_student world_reminded 0 class_roster "HW2" eq_refl)
    as (_ & _ & _ & Hskip & Hdone).
  split.
  - eapply Hskip; [reflexivity|].
    right. exists 1%nat, (mkAssignment "HW2" "pass" (Some 90%Q) false).
    split; [reflexivity|]. left. reflexivity.
  - assert (Hnd : NoDup (students class_roster)) by compute_done.
    assert (Hin : 1%nat ∈ students class_roster) by compute_done.
    exact (Hdone Hnd 1%nat
             (mkStudent "B" "b@example.org"
                [mkAssignment "HW2" "released" None false] None None)
             (mkStudent "B" "b@example.org"
                [mkAssignment "HW2" "submitted" None true] None None)
             [Notification 1 (notifyMessage "B" "HW2" "final reminder")]
             [mkTimer (GradeSubmission 1 0) 500]
             Hin eq_refl eq_refl).
Defined.

(** ** What the methods do to the timers, the promises and the class lists *)

Lemma calm_refl w : calm w w.
Proof. unfold calm. auto. Qed.

Lemma calm_trans w1 w2 w3 : calm w1 w2 → calm w2 w3 → calm w1 w3.
Proof.
  intros (Hc1 & Hp1 & Ht1) (Hc2 & Hp2 & Ht2). split; [congruence|].
  split; [congruence|]. intros t Ht. destruct (Ht2 t Ht) as [H|H]; auto.
Qed.

Lemma calm_notifyVia o sid s a w : calm w (notifyVia o sid s a w).
Proof.
  unfold notifyVia. destruct (callable o); [|apply calm_refl].
  unfold calm; simpl. auto.
Qed.

Lemma calm_writeStudent sid s w : calm w (writeStudent sid s w).
Proof. unfold calm; simpl. auto. Qed.

Lemma calm_setTimeout cb ms w : ¬ isRelease cb → calm w (setTimeout cb ms w).
Proof.
  intros Hcb. split; [done|]. split; [done|]. intros t Ht. simpl in Ht.
  apply elem_of_app in Ht as [Ht|Ht]; [by left|].
  apply list_elem_of_singleton in Ht as ->. by right.
Qed.

Lemma updateAssignmentStatus_frame sid name grade w :
  classLists (updateAssignmentStatus sid name grade w) = classLists w
  ∧ promises (updateAssignmentStatus sid name grade w) = promises w
  ∧ timers (updateAssignmentStatus sid name grade w) = timers w.
Proof.
  unfold updateAssignmentStatus. destruct (heap w !! sid); [|done].
  destruct (findOrCreate _ name s) as [[aid a] this1].
  unfold _notifyObserver, notifyVia. by destruct (callable _).
Qed.

Lemma calm_updateAssignmentStatus sid name grade w :
  calm w (updateAssignmentStatus sid name grade w).
Proof.
  destruct (updateAssignmentStatus_frame sid name grade w) as (Hc & Hp & Ht).
  split; [done|]. split; [done|]. intros t. rewrite Ht. by left.
Qed.

Lemma calm_startWorking sid name w : calm w (startWorking sid name w).
Proof.
  unfold startWorking. destruct (heap w !! sid); [|apply calm_refl].
  destruct (findOrCreate _ name s) as [[aid a] this1].
  eapply calm_trans; [|apply calm_setTimeout; simpl; tauto].
  eapply calm_trans; [apply calm_writeStudent|apply calm_notifyVia].
Qed.

Lemma calm_submitAssignment sid name w : calm w (submitAssignment sid name w).
Proof.
  unfold submitAssignment. destruct (heap w !! sid); [|apply calm_refl].
  destruct (findOrCreate _ name s) as [[aid a] this1].
  destruct (isSubmitted a); [apply calm_writeStudent|].
  eapply calm_trans; [|apply calm_setTimeout; simpl; tauto].
  eapply calm_trans; [apply calm_writeStudent|apply calm_notifyVia].
Qed.

Lemma calm_remindStudent observer name w sid :
  calm w (remindStudent observer name w sid).
Proof.
  unfold remindStudent. destruct (heap w !! sid); [|apply calm_refl].
  destruct (findByName name _) as [[aid a]|]; [|apply calm_refl].
  destruct (_ || _); [apply calm_refl|].
  eapply calm_trans; [|apply calm_submitAssignment].
  eapply calm_trans; [apply calm_writeStudent|apply calm_notifyVia].
Qed.

Lemma calm_fold {A} (f : World → A → World) (l : list A) :
  (∀ w x, calm w (f w x)) → ∀ w, calm w (fold_left f l w).
Proof.
  intros Hf. induction l as [|x l IH]; intros w; simpl; [apply calm_refl|].
  eapply calm_trans; [apply Hf|apply IH].
Qed.

Lemma calm_sendReminder cid name w : calm w (sendReminder cid name w).
Proof.
  unfold sendReminder. destruct (classLists w !! cid); [|apply calm_refl].
  apply calm_fold. intros. apply calm_remindStudent.
Qed.

Lemma release_fold_frame name roster : ∀ w,
  let w' := fold_left (λ w sid, updateAssignmentStatus sid name None w) roster w in
  classLists w' = classLists w ∧ promises w' = promises w ∧ timers w' = timers w.
Proof.
  induction roster as [|sid roster IH]; intros w; simpl; [done|].
  destruct (IH (updateAssignmentStatus sid name None w)) as (Hc & Hp & Ht).
  destruct (updateAssignmentStatus_frame sid name None w) as (Hc' & Hp' & Ht').
  split; [congruence|]. split; congruence.
Qed.


(** A callback other than a release is calm. *)
Lemma calm_runCallback draw cb w :
  ¬ isRelease cb → calm w (runCallback draw cb w).
Proof.
  destruct cb as [sid aid name|sid aid|cid name pid]; simpl; intros Hcb.
  - destruct (heap w !! sid) as [this|]; [|apply calm_refl].
    destruct (assignmentStatuses this !! aid) as [a|]; [|apply calm_refl].
    destruct (_ && _); [apply calm_submitAssignment|apply calm_refl].
  - destruct (heap w !! sid) as [this|]; [|apply calm_refl].
    destruct (assignmentStatuses this !! aid) as [a|]; [|apply calm_refl].
    eapply calm_trans; [apply calm_writeStudent|apply calm_notifyVia].
  - by destruct Hcb.
Qed.

(** The release callback of a class list that is there. *)
Lemma release_callback draw cid name pid this w :
  classLists w !! cid = Some this →
  let w' := runCallback draw (ReleaseToRoster cid name pid) w in
  classLists w' = classLists w
  ∧ promises w' = <[pid := true]> (promises w)
  ∧ timers w' = timers w
  ∧ heap w'
    = heap (fold_left (λ w sid, updateAssignmentStatus sid name None w)
              (students this) w).
Proof.
  intros Hthis. simpl. rewrite Hthis. unfold resolve; simpl.
  destruct (release_fold_frame name (students this) w) as (Hc & Hp & Ht).
  simpl in Hc, Hp, Ht. by rewrite Hc, Hp, Ht.
Qed.

(** ** Pending releases refer to promises that exist *)

Lemma armRelease_fold cid names : ∀ ps w,
  fold_left (armRelease cid) names (ps, w)
  = (ps ++ seq (length (promises w)) (length names),
     {| heap := heap w; classLists := classLists w;
        timers := timers w ++ releaseTimers cid (length (promises w)) names;
        promises := promises w ++ replicate (length names) false;
        console := console w |}).
Proof.
  induction names as [|name names IH]; intros ps w; simpl.
  - rewrite !app_nil_r. by destruct w.
  - rewrite IH. simpl. rewrite length_app. simpl.
    rewrite Nat.add_1_r, <- !app_assoc. reflexivity.
Qed.






(** ** Releases *)

Lemma findByName_is_Some name l :
  is_Some (findByName name l) ↔ name ∈ map assignmentName l.
Proof.
  rewrite <- not_eq_None_Some, findByName_None.
  split; [apply dec_stable|]. intros H Hn. done.
Qed.

Lemma arrayStep_hasName name l l' :
  arrayStep l l' → is_Some (findByName name l) → is_Some (findByName name l').
Proof.
  intros Hstep. rewrite !findByName_is_Some.
  destruct (arrayStep_names l l' Hstep) as [extra ->].
  intros H. apply elem_of_app. by left.
Qed.

Lemma heapStep_holds name sid h h' :
  heapStep h h' → holds name sid h → holds name sid h'.
Proof.
  intros [h0 sid0 this0 this' Hthis0 Harr] Hh this Hthis.
  destruct (decide (sid0 = sid)) as [->|Hne].
  - rewrite list_lookup_insert_eq in Hthis by by eapply lookup_lt_Some.
    injection Hthis as <-. unfold _findAssignment.
    eapply arrayStep_hasName; [exact Harr|]. by apply Hh.
  - rewrite list_lookup_insert_ne in Hthis by done. by apply Hh.
Qed.

Lemma heapSteps_holds name sid h h' :
  rtc heapStep h h' → holds name sid h → holds name sid h'.
Proof.
  induction 1 as [|h1 h2 h3 Hstep _ IH]; [done|].
  intros Hh. apply IH. by eapply heapStep_holds.
Qed.

Lemma releasedTo_steps roster name w w' :
  rtc heapStep (heap w) (heap w') →
  releasedTo roster name w → releasedTo roster name w'.
Proof.
  intros Hsteps Hrel sid this Hin.
  apply (heapSteps_holds name sid _ _ Hsteps).
  intros this0. by apply Hrel.
Qed.

Lemma releasedTo_heap roster name w w' :
  heap w' = heap w → releasedTo roster name w → releasedTo roster name w'.
Proof. unfold releasedTo. intros ->. done. Qed.

(** Releasing [name] to one student: a student that has the name stays as
    it is, one that lacks it gets a released assignment pushed. *)
Lemma release_one sid name w this :
  heap w !! sid = Some this →
  ∃ this',
    heap (updateAssignmentStatus sid name None w) = <[sid := this']> (heap w)
    ∧ is_Some (_findAssignment name this')
    ∧ (assignmentStatuses this' = assignmentStatuses this
       ∨ assignmentStatuses this'
         = assignmentStatuses this ++ [set_status "released" (newAssignment name)]).
Proof.
  intros Hthis. unfold updateAssignmentStatus. rewrite Hthis.
  destruct (findOrCreate _ name this) as [[aid a] this1] eqn:Hfc.
  apply findOrCreate_spec in Hfc as (Hfind1 & Hcases); [|reflexivity].
  pose proof (findByName_Some _ _ _ _ Hfind1) as [Hl1 Hname].
  exists (writeAssignment aid a this1).
  split; [by rewrite heap_notifyObserver|].
  assert (Hsame : assignmentStatuses (writeAssignment aid a this1)
                  = assignmentStatuses this1).
  { simpl. by apply list_insert_id. }
  split.
  - unfold _findAssignment. rewrite Hsame. by eexists.
  - rewrite Hsame. destruct Hcases as [(_ & ->)|(_ & -> & _ & ->)]; [by left|by right].
Qed.

Lemma release_one_holds sid name w :
  holds name sid (heap (updateAssignmentStatus sid name None w)).
Proof.
  intros this' Hthis'.
  destruct (heap w !! sid) as [this|] eqn:Hthis.
  - destruct (release_one sid name w this Hthis) as (s & Hheap & Hsome & _).
    rewrite Hheap, list_lookup_insert_eq in Hthis' by by eapply lookup_lt_Some.
    by injection Hthis' as <-.
  - unfold updateAssignmentStatus in Hthis'. rewrite Hthis in Hthis'. congruence.
Qed.

Lemma release_fold_releasedTo name roster : ∀ w,
  releasedTo roster name
    (fold_left (λ w sid, updateAssignmentStatus sid name None w) roster w).
Proof.
  induction roster as [|x roster IH]; intros w sid this Hin.
  - by apply elem_of_nil in Hin.
  - simpl. apply elem_of_cons in Hin as [->|Hin]; [|by apply IH].
    apply (heapSteps_holds name x
             (heap (updateAssignmentStatus x name None w))).
    + apply (fold_heapStep (λ w sid, updateAssignmentStatus sid name None w)).
      intros. apply updateAssignmentStatus_heapStep.
    + apply release_one_holds.
Qed.








Section Batch.
Variables (cid : nat) (this : ClassList) (names : list string) (base : nat).




End Batch.







(** * Further properties *)

(** ** The roster *)

Lemma addStudent_roster_aux w cid sid this student :
  classLists w !! cid = Some this → heap w !! sid = Some student →
  rosterOf cid (addStudent cid sid w) = students this ++ [sid].
Proof.
  intros Hthis Hstudent. unfold addStudent, rosterOf.
  rewrite Hthis, Hstudent. simpl.
  by rewrite list_lookup_insert_eq by by eapply lookup_lt_Some.
Qed.

Lemma rosterOf_removeStudent cid sid w :
  rosterOf cid (removeStudent cid sid w)
  = List.filter (λ s, bool_decide (s ≠ sid)) (rosterOf cid w).
Proof.
  unfold removeStudent, rosterOf.
  destruct (classLists w !! cid) as [this|] eqn:Hthis.
  - simpl. rewrite list_lookup_insert_eq by by eapply lookup_lt_Some. reflexivity.
  - by rewrite Hthis.
Qed.

Lemma filter_all {A} (p : A → bool) (l : list A) :
  (∀ x, x ∈ l → p x = true) → List.filter p l = l.
Proof.
  induction l as [|x l IH]; intros H; [reflexivity|]. simpl.
  rewrite (H x) by (by left). f_equal. apply IH. intros y Hy. apply H. by right.
Qed.

Lemma count_occ_filter_ne (sid x : nat) (l : list nat) :
  x ≠ sid →
  count_occ Nat.eq_dec (List.filter (λ s, bool_decide (s ≠ sid)) l) x
  = count_occ Nat.eq_dec l x.
Proof.
  intros Hne. induction l as [|y l IH]; [reflexivity|].
  cbn [List.filter]. destruct (decide (y = sid)) as [->|Hy].
  - rewrite bool_decide_eq_false_2 by tauto.
    rewrite IH. symmetry. apply count_occ_cons_neq. congruence.
  - rewrite bool_decide_eq_true_2 by exact Hy.
    cbn [count_occ]. destruct (Nat.eq_dec y x); by rewrite IH.
Qed.

(** X1. [removeStudent(student)] removes every occurrence of that very
    object from the roster and nothing else: the roster afterwards is the
    roster before without the entries for that student, so every other
    student is on it as many times as before, in the same order; removing a
    student that is not on the roster changes nothing; and removing right
    after adding gives back the roster one started with when the student
    was not on it. *)
Theorem removeStudent_removes_every_occurrence (w : World) (cid sid : nat) :
  let before := rosterOf cid w in
  let after := rosterOf cid (removeStudent cid sid w) in
  (sid ∉ after)
  ∧ (∀ x, x ≠ sid → x ∈ after ↔ x ∈ before)
  ∧ sublist after before
  ∧ after = List.filter (λ s, bool_decide (s ≠ sid)) before
  ∧ count_occ Nat.eq_dec after sid = 0%nat
  ∧ (∀ x, x ≠ sid →
       count_occ Nat.eq_dec after x = count_occ Nat.eq_dec before x)
  ∧ (sid ∉ before → after = before)
  ∧ (sid ∉ before → is_Some (classLists w !! cid) → is_Some (heap w !! sid) →
     rosterOf cid (removeStudent cid sid (addStudent cid sid w)) = before)
  ∧ heap (removeStudent cid sid w) = heap w
  ∧ console (removeStudent cid sid w) = console w
  ∧ timers (removeStudent cid sid w) = timers w.
Proof.
  intros before after. unfold after. rewrite rosterOf_removeStudent.
  fold before.
  assert (Hmem : ∀ x, x ∈ List.filter (λ s, bool_decide (s ≠ sid)) before
                      ↔ x ∈ before ∧ x ≠ sid).
  { intros x. rewrite !list_elem_of_In, filter_In, bool_decide_eq_true. done. }
  assert (Hkeep : sid ∉ before →
            List.filter (λ s, bool_decide (s ≠ sid)) before = before).
  { intros Hnin. apply filter_all. intros x Hx.
    apply bool_decide_eq_true_2. intros ->. done. }
  split; [rewrite Hmem; tauto|].
  split; [intros x Hne; rewrite Hmem; tauto|].
  split.
  { clear. induction before as [|x l IH]; simpl; [constructor|].
    destruct (bool_decide (x ≠ sid)); by constructor. }
  split; [reflexivity|].
  split.
  { apply count_occ_not_In. rewrite <- list_elem_of_In, Hmem. tauto. }
  split; [intros x Hne; by apply count_occ_filter_ne|].
  split; [exact Hkeep|].
  split.
  { intros Hnin [this Hthis] [student Hstudent].
    rewrite rosterOf_removeStudent.
    pose proof (addStudent_roster_aux w cid sid this student Hthis Hstudent) as ->.
    unfold before, rosterOf in *. rewrite Hthis in *.
    rewrite List.filter_app. simpl.
    rewrite (bool_decide_eq_false_2 (sid ≠ sid)) by tauto.
    rewrite app_nil_r. by apply Hkeep. }
  unfold removeStudent. by destruct (classLists w !! cid).
Qed.

Lemma removeStudent_removes_every_occurrence_witness :
  rosterOf 0 world_enrolled_twice = [0; 1; 0]%nat
  ∧ rosterOf 0 (removeStudent 0 0 world_enrolled_twice) = [1]%nat
  ∧ count_occ Nat.eq_dec (rosterOf 0 (removeStudent 0 0 world_enrolled_twice)) 1
    = count_occ Nat.eq_dec (rosterOf 0 world_enrolled_twice) 1
  ∧ rosterOf 0 (removeStudent 0 1 (addStudent 0 1 world_unenrolled))
    = rosterOf 0 world_unenrolled.
Proof.
  destruct (removeStudent_removes_every_occurrence world_enrolled_twice 0 0)
    as (_ & _ & _ & Hfilter & _ & Hcount & _).
  destruct (removeStudent_removes_every_occurrence world_unenrolled 0 1)
    as (_ & _ & _ & _ & _ & _ & _ & Hround & _).
  split; [reflexivity|].
  split; [rewrite Hfilter; reflexivity|].
  split; [apply Hcount; lia|].
  apply Hround; [compute_done|by eexists|by eexists].
Defined.

Lemma find_first {A} (p : A → bool) (l : list A) :
  match List.find p l with
  | Some x =>
      ∃ k, l !! k = Some x ∧ p x = true
           ∧ ∀ j y, (j < k)%nat → l !! j = Some y → p y = false
  | None => ∀ x, x ∈ l → p x = false
  end.
Proof.
  induction l as [|x l IH]; simpl.
  - intros x Hx. by apply elem_of_nil in Hx.
  - destruct (p x) eqn:Hpx.
    + exists 0%nat. split; [done|]. split; [done|]. intros j y Hj. lia.
    + destruct (List.find p l) as [z|].
      * destruct IH as (k & Hk & Hz & Hfirst). exists (S k).
        split; [done|]. split; [done|].
        intros [|j] y Hj Hy; simpl in Hy; [by injection Hy as <-|].
        apply (Hfirst j); [lia|done].
      * intros y Hy. apply elem_of_cons in Hy as [->|Hy]; [done|by apply IH].
Qed.

(** X2. [findStudentByName(fullName)] returns the first student of the
    roster, in roster order, whose name is the one asked for, and nothing
    exactly when no student of the roster has that name; so every student
    on the roster is found under its own name, by itself or by a namesake
    earlier on the roster. *)
Theorem findStudentByName_first_match (w : World) (cid : nat) (name : string) :
  match findStudentByName cid name w with
  | Some sid =>
      ∃ k s, rosterOf cid w !! k = Some sid ∧ heap w !! sid = Some s
             ∧ fullName s = name
             ∧ ∀ j sid' s', (j < k)%nat → rosterOf cid w !! j = Some sid' →
                 heap w !! sid' = Some s' → fullName s' ≠ name
  | None =>
      ∀ sid s, sid ∈ rosterOf cid w → heap w !! sid = Some s → fullName s ≠ name
  end
  ∧ (∀ sid s, sid ∈ rosterOf cid w → heap w !! sid = Some s →
       fullName s = name → is_Some (findStudentByName cid name w)).
Proof.
  assert (Hchar :
    match findStudentByName cid name w with
    | Some sid =>
        ∃ k s, rosterOf cid w !! k = Some sid ∧ heap w !! sid = Some s
               ∧ fullName s = name
               ∧ ∀ j sid' s', (j < k)%nat → rosterOf cid w !! j = Some sid' →
                   heap w !! sid' = Some s' → fullName s' ≠ name
    | None =>
        ∀ sid s, sid ∈ rosterOf cid w → heap w !! sid = Some s → fullName s ≠ name
    end).
  { unfold findStudentByName, rosterOf.
    destruct (classLists w !! cid) as [this|].
    2:{ intros sid s Hin. by apply elem_of_nil in Hin. }
    set (p := λ sid, match heap w !! sid with
                     | Some s => bool_decide (fullName s = name)
                     | None => false
                     end).
    pose proof (find_first p (students this)) as Hfind.
    destruct (List.find p (students this)) as [sid|].
    - destruct Hfind as (k & Hk & Hp & Hfirst). unfold p in Hp.
      destruct (heap w !! sid) as [s|] eqn:Hs; [|discriminate].
      exists k, s. split; [done|]. split; [done|].
      split; [by apply bool_decide_eq_true in Hp|].
      intros j sid' s' Hj Hsid' Hs'. specialize (Hfirst j sid' Hj Hsid').
      unfold p in Hfirst. rewrite Hs' in Hfirst.
      by apply bool_decide_eq_false in Hfirst.
    - intros sid s Hin Hs. specialize (Hfind sid Hin). unfold p in Hfind.
      rewrite Hs in Hfind. by apply bool_decide_eq_false in Hfind. }
  split; [exact Hchar|].
  intros sid s Hin Hs Hname.
  destruct (findStudentByName cid name w); [by eexists|].
  exfalso. by apply (Hchar sid s).
Qed.

Lemma findStudentByName_first_match_witness :
  is_Some (findStudentByName 0 "B" world_roster).
Proof.
  apply (proj2 (findStudentByName_first_match world_roster 0 "B") 1%nat
           (mkStudent "B" "b@example.org"
              [mkAssignment "HW2" "released" None false] None None)).
  - compute_done.
  - reflexivity.
  - reflexivity.
Defined.

(** ** What findOutstandingAssignments never lists *)

Lemma filter_sublist_weaken {A} (p q : A → bool) (l : list A) :
  (∀ x, p x = true → q x = true) →
  sublist (List.filter p l) (List.filter q l).
Proof.
  intros Hpq. induction l as [|x l IH]; simpl; [constructor|].
  destruct (p x) eqn:Hp.
  - rewrite (Hpq x Hp). by constructor.
  - destruct (q x); [by constructor|done].
Qed.

Lemma sublist_map {A B} (f : A → B) (l1 l2 : list A) :
  sublist l1 l2 → sublist (map f l1) (map f l2).
Proof. induction 1; simpl; by constructor. Qed.

Lemma existsb_weaken {A} (p q : A → bool) (l : list A) :
  (∀ x, p x = true → q x = true) → existsb p l = true → existsb q l = true.
Proof.
  intros Hpq H. apply existsb_exists in H as (x & Hx & Hp).
  apply existsb_exists. exists x. auto.
Qed.

(** X3. Whatever the mode, [findOutstandingAssignments] lists names of
    roster students only, in roster order, and never a student all of whose
    assignments are submitted, passed or failed (in particular never a
    student without assignments). *)
Theorem findOutstandingAssignments_lists_open_only (w : World) (cid : nat)
    (name : string) :
  sublist (findOutstandingAssignments cid name w)
    (map fullName (List.filter hasOpen (deref w (rosterOf cid w)))).
Proof.
  unfold findOutstandingAssignments, rosterOf.
  destruct (classLists w !! cid) as [this|]; [|constructor].
  set (roster := deref w (students this)).
  unfold findOutstanding. rewrite scan_fold, fallback_fold. simpl.
  destruct (existsb _ roster).
  - apply sublist_map. apply filter_sublist_weaken. intros s Hs.
    destruct (findByName name (assignmentStatuses s)) as [[aid a]|] eqn:Hf;
      [|discriminate].
    apply findByName_Some in Hf as [Hl _].
    apply existsb_exists. exists a. split; [|exact Hs].
    apply list_elem_of_In, list_elem_of_lookup. eauto.
  - apply sublist_map. apply filter_sublist_weaken. intros s Hs.
    unfold hasInFlight in Hs. revert Hs. apply existsb_weaken.
    intros a Ha. unfold isInFlight in Ha. unfold isCompleted.
    apply orb_true_iff in Ha as [Ha|Ha]; apply bool_decide_eq_true in Ha;
      rewrite Ha; reflexivity.
Qed.

(** ** What no operation undoes *)

Lemma kept_refl a : kept a a.
Proof. unfold kept. auto. Qed.

Lemma kept_trans a b c : kept a b → kept b c → kept a c.
Proof.
  intros (Hn1 & Hs1 & Hg1) (Hn2 & Hs2 & Hg2). unfold kept.
  split; [congruence|]. split; auto.
Qed.

Lemma assignmentWrite_kept a a' : assignmentWrite a a' → kept a a'.
Proof.
  destruct 1; unfold kept; simpl; repeat split; auto.
Qed.

Lemma arrayStep_kept l l' aid a :
  arrayStep l l' → l !! aid = Some a →
  ∃ a', l' !! aid = Some a' ∧ kept a a'.
Proof.
  destruct 1 as [l|l aid0 a0 a0' Hl Hw|l name a' Hnone Hc]; intros Ha.
  - exists a. split; [done|apply kept_refl].
  - destruct (decide (aid0 = aid)) as [->|Hne].
    + exists a0'. split.
      * apply list_lookup_insert_eq. by eapply lookup_lt_Some.
      * rewrite Hl in Ha. injection Ha as <-. by apply assignmentWrite_kept.
    + exists a. split; [by rewrite list_lookup_insert_ne|apply kept_refl].
  - exists a. split; [|apply kept_refl].
    rewrite lookup_app_l; [done|by eapply lookup_lt_Some].
Qed.

Lemma heapStep_kept h h' sid this aid a :
  heapStep h h' → h !! sid = Some this → assignmentStatuses this !! aid = Some a →
  ∃ this' a', h' !! sid = Some this' ∧ assignmentStatuses this' !! aid = Some a'
              ∧ kept a a'.
Proof.
  intros [h0 sid0 this0 this0' Hthis0 Harr] Hthis Ha.
  destruct (decide (sid0 = sid)) as [->|Hne].
  - rewrite Hthis0 in Hthis. injection Hthis as ->.
    destruct (arrayStep_kept _ _ aid a Harr Ha) as (a' & Ha' & Hk).
    exists this0', a'. split; [|done].
    apply list_lookup_insert_eq. by eapply lookup_lt_Some.
  - exists this, a. split; [by rewrite list_lookup_insert_ne|].
    split; [done|apply kept_refl].
Qed.

Lemma heapSteps_kept h h' :
  rtc heapStep h h' →
  ∀ sid this aid a,
    h !! sid = Some this → assignmentStatuses this !! aid = Some a →
    ∃ this' a', h' !! sid = Some this' ∧ assignmentStatuses this' !! aid = Some a'
                ∧ kept a a'.
Proof.
  induction 1 as [h|h1 h2 h3 Hstep _ IH]; intros sid this aid a Hthis Ha.
  - exists this, a. split; [done|]. split; [done|apply kept_refl].
  - destruct (heapStep_kept _ _ _ _ _ _ Hstep Hthis Ha) as (this2 & a2 & H2 & Ha2 & Hk2).
    destruct (IH sid this2 aid a2 H2 Ha2) as (this3 & a3 & H3 & Ha3 & Hk3).
    exists this3, a3. split; [done|]. split; [done|]. by eapply kept_trans.
Qed.

Lemma exec_kept op w sid this aid a :
  heap w !! sid = Some this → assignmentStatuses this !! aid = Some a →
  ∃ this' a',
    heap (exec op w) !! sid = Some this'
    ∧ assignmentStatuses this' !! aid = Some a'
    ∧ kept a a'.
Proof.
  intros Hthis Ha.
  destruct (exec_heapStep op w) as [Hsteps|(s & _ & ->)].
  - by eapply heapSteps_kept.
  - exists this, a. split; [|split; [done|apply kept_refl]].
    rewrite lookup_app_l; [done|by eapply lookup_lt_Some].
Qed.

(** X5. No operation, and no timer callback, removes a student or an
    assignment, moves an assignment to another position, renames it, takes
    a submission back or clears a grade; and this holds along every
    program. *)
Theorem nothing_is_undone (ops : list Op) (w : World) (sid aid : nat)
    (this : Student) (a : Assignment) :
  heap w !! sid = Some this →
  assignmentStatuses this !! aid = Some a →
  ∃ this' a',
    heap (run ops w) !! sid = Some this'
    ∧ assignmentStatuses this' !! aid = Some a'
    ∧ assignmentName a' = assignmentName a
    ∧ (isSubmitted a = true → isSubmitted a' = true)
    ∧ (is_Some (_grade a) → is_Some (_grade a')).
Proof.
  revert w this a. induction ops as [|op ops IH]; intros w this a Hthis Ha.
  - exists this, a. auto.
  - destruct (exec_kept op w sid this aid a Hthis Ha) as (this1 & a1 & H1 & Ha1 & Hk1).
    destruct (IH (exec op w) this1 a1 H1 Ha1) as (this2 & a2 & H2 & Ha2 & Hn & Hs & Hg).
    exists this2, a2. split; [exact H2|]. split; [exact Ha2|].
    destruct Hk1 as (Hn1 & Hs1 & Hg1).
    split; [congruence|]. split; auto.
Qed.

Lemma nothing_is_undone_witness :
  ∃ this' a',
    heap (run [OpStartWorking 0 "HW1"; OpSendReminder 0 "HW1"] world_graded)
      !! 0%nat = Some this'
    ∧ assignmentStatuses this' !! 0%nat = Some a'
    ∧ isSubmitted a' = true ∧ is_Some (_grade a').
Proof.
  destruct (nothing_is_undone [OpStartWorking 0 "HW1"; OpSendReminder 0 "HW1"]
              world_graded 0 0 ada_graded
              (mkAssignment "HW1" "pass" (Some 70%Q) true) eq_refl eq_refl)
    as (this' & a' & H1 & H2 & _ & Hs & Hg).
  exists this', a'. split; [exact H1|]. split; [exact H2|].
  split; [by apply Hs|]. apply Hg. by eexists.
Defined.

(** ** Promises *)

Lemma promises_exec_monotone op w pid :
  promises w !! pid = Some true → promises (exec op w) !! pid = Some true.
Proof.
  intros Hp. destruct op; simpl; try exact Hp.
  - by rewrite (proj1 (proj2 (calm_updateAssignmentStatus sid name grade w))).
  - by rewrite (proj1 (proj2 (calm_startWorking sid name w))).
  - by rewrite (proj1 (proj2 (calm_submitAssignment sid name w))).
  - unfold addStudent. destruct (classLists w !! cid); [|done].
    by destruct (heap w !! sid).
  - unfold removeStudent. by destruct (classLists w !! cid).
  - unfold releaseAssignmentsParallel. rewrite armRelease_fold. simpl.
    by apply lookup_app_l_Some.
  - by rewrite (proj1 (proj2 (calm_sendReminder cid name w))).
  - unfold fire. destruct (timers w !! i) as [t|]; [|done].
    set (w_ := set_timers (delete i (timers w)) w).
    destruct (callback t) as [sid aid name|sid aid|cid name p] eqn:Hcb.
    + rewrite (proj1 (proj2 (calm_runCallback draw (AutoSubmit sid aid name) w_
                               ltac:(simpl; tauto)))). done.
    + rewrite (proj1 (proj2 (calm_runCallback draw (GradeSubmission sid aid) w_
                               ltac:(simpl; tauto)))). done.
    + destruct (classLists w_ !! cid) as [this|] eqn:Hthis.
      * destruct (release_callback draw cid name p this w_ Hthis) as (_ & -> & _).
        destruct (decide (p = pid)) as [->|Hne].
        -- apply list_lookup_insert_eq. by eapply lookup_lt_Some.
        -- by rewrite list_lookup_insert_ne.
      * cbn [runCallback]. by rewrite Hthis.
Qed.

(** X6. A promise that is resolved stays resolved whatever happens next,
    and so does the awaitable of [releaseAssignmentsParallel]: no operation
    and no timer makes it pending again. *)
Theorem resolved_stays_resolved (ops : list Op) (w : World) (ps : list nat) :
  allResolved w ps = true → allResolved (run ops w) ps = true.
Proof.
  revert w. induction ops as [|op ops IH]; intros w Hres; [exact Hres|].
  unfold run; simpl. apply IH.
  unfold allResolved in *. rewrite forallb_forall in *.
  intros pid Hpid. specialize (Hres pid Hpid).
  apply bool_decide_eq_true_2. apply promises_exec_monotone.
  by eapply bool_decide_eq_true_1.
Qed.

Lemma resolved_stays_resolved_witness :
  allResolved
    (run [OpSendReminder 0 "HW1"; OpReleaseAssignmentsParallel 0 ["HW3"]]
       (run (replicate 2 (OpTimer 0 0))
          (snd (releaseAssignmentsParallel 0 ["HW1"; "HW2"] world_roster))))
    [0; 1]%nat = true.
Proof.
  apply resolved_stays_resolved. reflexivity.
Defined.

(** ** updateAssignmentStatus *)

Lemma console_notifyVia o sid s a w :
  console (notifyVia o sid s a w)
  = console w
    ++ (if callable o
        then [Notification sid
                (notifyMessage (fullName s) (assignmentName a) (status a))]
        else []).
Proof.
  unfold notifyVia, notify, console_log.
  destruct (callable o); simpl; by rewrite ?app_nil_r.
Qed.

Lemma timers_notifyVia o sid s a w : timers (notifyVia o sid s a w) = timers w.
Proof. unfold notifyVia. by destruct (callable o). Qed.

Lemma updateAssignmentStatus_found w sid name grade this aid a :
  heap w !! sid = Some this →
  _findAssignment name this = Some (aid, a) →
  updateAssignmentStatus sid name grade w
  = let a' := match grade with Some g => setGrade g a | None => a end in
    let this' := writeAssignment aid a' this in
    notifyVia (_observer this) sid this' a' (writeStudent sid this' w).
Proof.
  intros Hthis Hfind. unfold updateAssignmentStatus, findOrCreate.
  rewrite Hthis, Hfind. reflexivity.
Qed.

Lemma updateAssignmentStatus_absent w sid name grade this :
  heap w !! sid = Some this →
  _findAssignment name this = None →
  updateAssignmentStatus sid name grade w
  = let fresh := set_status "released" (newAssignment name) in
    let a' := match grade with Some g => setGrade g fresh | None => fresh end in
    let this' := pushAssignment a' this in
    notifyVia (_observer this) sid this' a' (writeStudent sid this' w).
Proof.
  intros Hthis Hfind. unfold updateAssignmentStatus, findOrCreate.
  rewrite Hthis, Hfind. cbv zeta.
  assert (Hpush : ∀ fresh a',
    writeAssignment (length (assignmentStatuses this)) a' (pushAssignment fresh this)
    = pushAssignment a' this).
  { intros fresh a'. unfold writeAssignment, pushAssignment, set_assignmentStatuses.
    simpl. rewrite insert_app_r_alt by lia. by rewrite Nat.sub_diag. }
  rewrite Hpush. reflexivity.
Qed.

Lemma status_setGrade g a :
  (status (setGrade g a) = "pass" ↔ (50 < g)%Q)
  ∧ (status (setGrade g a) = "fail" ↔ ¬ (50 < g)%Q).
Proof.
  unfold setGrade; simpl. destruct (Qlt_le_dec 50 g) as [Hlt|Hle].
  - split; [tauto|]. split; [discriminate|tauto].
  - assert (¬ (50 < g)%Q) by (intros Hlt; lra).
    split; [|tauto]. split; [discriminate|tauto].
Qed.

(** X7. [updateAssignmentStatus(n, g)] with a number [g] grades the
    assignment called [n], creating it when absent: afterwards it has grade
    [g] and status pass or fail by the 50 threshold, whatever its status
    was.  An existing assignment keeps its place and its [isSubmitted]
    flag, a created one is not submitted.  No timer is armed, and the
    student's observer, if callable, gets exactly one notification, which
    reports the new status. *)
Theorem updateAssignmentStatus_grades (w : World) (sid : nat) (name : string)
    (g : Q) (this : Student) :
  heap w !! sid = Some this →
  let w' := updateAssignmentStatus sid name (Some g) w in
  ∃ this' aid a',
    heap w' !! sid = Some this'
    ∧ _findAssignment name this' = Some (aid, a')
    ∧ _grade a' = Some g
    ∧ (status a' = "pass" ↔ (50 < g)%Q)
    ∧ (status a' = "fail" ↔ ¬ (50 < g)%Q)
    ∧ (∀ aid0 a, _findAssignment name this = Some (aid0, a) →
         aid = aid0 ∧ isSubmitted a' = isSubmitted a
         ∧ assignmentStatuses this' = <[aid0 := a']> (assignmentStatuses this))
    ∧ (_findAssignment name this = None →
         isSubmitted a' = false
         ∧ assignmentStatuses this' = assignmentStatuses this ++ [a'])
    ∧ timers w' = timers w
    ∧ console w'
      = console w
        ++ (if callable (_observer this)
            then [Notification sid (notifyMessage (fullName this) name (status a'))]
            else []).
Proof.
  intros Hthis w'. unfold w'.
  assert (Hlt : (sid < length (heap w))%nat) by by eapply lookup_lt_Some.
  destruct (_findAssignment name this) as [[aid a]|] eqn:Hfind.
  - rewrite (updateAssignmentStatus_found w sid name (Some g) this aid a Hthis Hfind).
    cbv zeta. pose proof (findByName_Some _ _ _ _ Hfind) as [Hl Hname].
    exists (writeAssignment aid (setGrade g a) this), aid, (setGrade g a).
    split. { rewrite heap_notifyVia, heap_writeStudent. by apply list_lookup_insert_eq. }
    split. { unfold _findAssignment; simpl. by apply findByName_write with a. }
    split; [reflexivity|].
    split; [apply status_setGrade|]. split; [apply status_setGrade|].
    split. { intros aid0 a0 [= <- <-]. done. }
    split; [discriminate|].
    split; [by rewrite timers_notifyVia|].
    rewrite console_notifyVia. simpl. by rewrite Hname.
  - rewrite (updateAssignmentStatus_absent w sid name (Some g) this Hthis Hfind).
    cbv zeta. set (a' := setGrade g (set_status "released" (newAssignment name))).
    exists (pushAssignment a' this), (length (assignmentStatuses this)), a'.
    split. { rewrite heap_notifyVia, heap_writeStudent. by apply list_lookup_insert_eq. }
    split. { unfold _findAssignment; simpl. by apply findByName_push. }
    split; [reflexivity|].
    split; [apply status_setGrade|]. split; [apply status_setGrade|].
    split; [discriminate|].
    split; [done|].
    split; [by rewrite timers_notifyVia|].
    by rewrite console_notifyVia.
Qed.

Lemma updateAssignmentStatus_grades_witness :
  ∃ this' aid a',
    heap (updateAssignmentStatus 0 "HW1" (Some 50%Q) world_graded) !! 0%nat
    = Some this'
    ∧ _findAssignment "HW1" this' = Some (aid, a')
    ∧ _grade a' = Some 50%Q ∧ status a' = "fail" ∧ isSubmitted a' = true.
Proof.
  destruct (updateAssignmentStatus_grades world_graded 0 "HW1" 50 ada_graded eq_refl)
    as (this' & aid & a' & H1 & H2 & H3 & _ & Hfail & Hfound & _).
  exists this', aid, a'. split; [exact H1|]. split; [exact H2|]. split; [exact H3|].
  split.
  - apply Hfail. unfold Qlt; simpl. lia.
  - destruct (Hfound 0%nat (mkAssignment "HW1" "pass" (Some 70%Q) true) eq_refl)
      as (_ & Hs & _). exact Hs.
Defined.

(** X8. [updateAssignmentStatus(n)] without a grade releases [n]: it pushes
    a released, ungraded, unsubmitted assignment when the student has none
    under that name and otherwise changes nothing of the student; either
    way the observer is notified with the status the assignment then has.
    Releasing a second time changes no student and arms no timer; it only
    notifies again. *)
Theorem updateAssignmentStatus_release_once (w : World) (sid : nat)
    (name : string) (this : Student) :
  heap w !! sid = Some this →
  let w1 := updateAssignmentStatus sid name None w in
  let w2 := updateAssignmentStatus sid name None w1 in
  (∃ this1 aid a1,
     heap w1 = <[sid := this1]> (heap w)
     ∧ _findAssignment name this1 = Some (aid, a1)
     ∧ match _findAssignment name this with
       | Some (aid0, a) => this1 = this ∧ aid = aid0 ∧ a1 = a
       | None =>
           assignmentStatuses this1
           = assignmentStatuses this ++ [mkAssignment name "released" None false]
           ∧ a1 = mkAssignment name "released" None false
       end
     ∧ console w1
       = console w
         ++ (if callable (_observer this)
             then [Notification sid (notifyMessage (fullName this) name (status a1))]
             else [])
     ∧ console w2
       = console w1
         ++ (if callable (_observer this)
             then [Notification sid (notifyMessage (fullName this) name (status a1))]
             else []))
  ∧ heap w2 = heap w1
  ∧ timers w2 = timers w
  ∧ promises w2 = promises w.
Proof.
  intros Hthis w1 w2.
  assert (Hlt : (sid < length (heap w))%nat) by by eapply lookup_lt_Some.
  assert (Hsame : ∀ v s aid a,
    heap v !! sid = Some s → _findAssignment name s = Some (aid, a) →
    updateAssignmentStatus sid name None v = notifyVia (_observer s) sid s a v).
  { intros v s aid a Hs Hf.
    rewrite (updateAssignmentStatus_found v sid name None s aid a Hs Hf). cbv zeta.
    apply findByName_Some in Hf as [Hl _].
    assert (Hw : writeAssignment aid a s = s).
    { unfold writeAssignment, set_assignmentStatuses.
      rewrite list_insert_id by done. by destruct s. }
    rewrite Hw. by rewrite writeStudent_same. }
  assert (Hframe : timers w2 = timers w ∧ promises w2 = promises w).
  { destruct (updateAssignmentStatus_frame sid name None w) as (_ & Hp1 & Ht1).
    destruct (updateAssignmentStatus_frame sid name None w1) as (_ & Hp2 & Ht2).
    fold w1 in Hp1, Ht1. fold w2 in Hp2, Ht2. split; congruence. }
  destruct (_findAssignment name this) as [[aid a]|] eqn:Hfind.
  - assert (H1 : w1 = notifyVia (_observer this) sid this a w).
    { by apply (Hsame w this aid a). }
    assert (Hthis1 : heap w1 !! sid = Some this).
    { by rewrite H1, heap_notifyVia. }
    assert (H2 : w2 = notifyVia (_observer this) sid this a w1).
    { by apply (Hsame w1 this aid a). }
    pose proof (findByName_Some _ _ _ _ Hfind) as [_ Hname].
    split; [|split; [by rewrite H2, heap_notifyVia|exact Hframe]].
    exists this, aid, a. split.
    { rewrite H1, heap_notifyVia. symmetry. by apply list_insert_id. }
    split; [exact Hfind|]. split; [done|].
    split; [by rewrite H1, console_notifyVia, Hname|].
    rewrite H2, console_notifyVia, Hname. reflexivity.
  - set (a1 := mkAssignment name "released" None false).
    set (this1 := pushAssignment a1 this).
    assert (H1 : w1 = notifyVia (_observer this) sid this1 a1
                        (writeStudent sid this1 w)).
    { by apply (updateAssignmentStatus_absent w sid name None this). }
    assert (Hthis1 : heap w1 !! sid = Some this1).
    { rewrite H1, heap_notifyVia, heap_writeStudent. by apply list_lookup_insert_eq. }
    assert (Hfind1 : _findAssignment name this1
                     = Some (length (assignmentStatuses this), a1)).
    { unfold _findAssignment; simpl. by apply findByName_push. }
    assert (H2 : w2 = notifyVia (_observer this1) sid this1 a1 w1).
    { by eapply Hsame. }
    split; [|split; [by rewrite H2, heap_notifyVia|exact Hframe]].
    exists this1, (length (assignmentStatuses this)), a1. split.
    { by rewrite H1, heap_notifyVia. }
    split; [exact Hfind1|]. split; [done|].
    split; [by rewrite H1, console_notifyVia|].
    rewrite H2, console_notifyVia. reflexivity.
Qed.

Lemma updateAssignmentStatus_release_once_witness :
  heap (updateAssignmentStatus 0 "HW2" None
          (updateAssignmentStatus 0 "HW2" None world_roster))
  = heap (updateAssignmentStatus 0 "HW2" None world_roster).
Proof.
  exact (proj1 (proj2 (updateAssignmentStatus_release_once world_roster 0 "HW2"
                         (mkStudent "A" "a@example.org"
                            [mkAssignment "HW1" "released" None false] None
                            (Some (mkObserver true))) eq_refl))).
Defined.

(** ** Students without an observer *)

Lemma console_notifyVia_silent o sid s a w :
  callable o = false → console (notifyVia o sid s a w) = console w.
Proof. intros H. unfold notifyVia. by rewrite H. Qed.

Lemma observer_findOrCreate fresh name this aid a this1 :
  findOrCreate fresh name this = (aid, a, this1) → _observer this1 = _observer this.
Proof.
  unfold findOrCreate. destruct (_findAssignment name this) as [[i x]|];
    by intros [= <- <- <-].
Qed.

Lemma submitAssignment_silent w sid name this :
  heap w !! sid = Some this → callable (_observer this) = false →
  console (submitAssignment sid name w) = console w.
Proof.
  intros Hthis Hobs. unfold submitAssignment. rewrite Hthis.
  destruct (findOrCreate _ name this) as [[aid a] this1] eqn:Hfc.
  apply observer_findOrCreate in Hfc.
  destruct (isSubmitted a); [reflexivity|].
  simpl. unfold _notifyObserver. rewrite console_notifyVia_silent; [done|].
  simpl. by rewrite Hfc.
Qed.

(** X9. A student built without an observer, or with an object that has
    no [notify] function, is handled in silence: [updateAssignmentStatus],
    [startWorking], [submitAssignment] and the two timer callbacks of that
    student print nothing. *)
Theorem silent_without_observer (w : World) (sid : nat) (name : string)
    (grade : option Q) (this : Student) :
  heap w !! sid = Some this →
  callable (_observer this) = false →
  console (updateAssignmentStatus sid name grade w) = console w
  ∧ console (startWorking sid name w) = console w
  ∧ console (submitAssignment sid name w) = console w
  ∧ ∀ draw aid,
      console (runCallback draw (AutoSubmit sid aid name) w) = console w
      ∧ console (runCallback draw (GradeSubmission sid aid) w) = console w.
Proof.
  intros Hthis Hobs. split; [|split; [|split]].
  - unfold updateAssignmentStatus. rewrite Hthis.
    destruct (findOrCreate _ name this) as [[aid a] this1] eqn:Hfc.
    apply observer_findOrCreate in Hfc.
    unfold _notifyObserver. rewrite console_notifyVia_silent; [done|].
    simpl. by rewrite Hfc.
  - unfold startWorking. rewrite Hthis.
    destruct (findOrCreate _ name this) as [[aid a] this1] eqn:Hfc.
    apply observer_findOrCreate in Hfc.
    simpl. unfold _notifyObserver. rewrite console_notifyVia_silent; [done|].
    simpl. by rewrite Hfc.
  - by apply submitAssignment_silent with this.
  - intros draw aid. split; simpl; rewrite Hthis.
    + destruct (assignmentStatuses this !! aid) as [a|]; [|done].
      destruct (_ && _); [|done]. by apply submitAssignment_silent with this.
    + destruct (assignmentStatuses this !! aid) as [a|]; [|done].
      unfold _notifyObserver. rewrite console_notifyVia_silent; [done|].
      unfold getGrade. destruct (decide _); exact Hobs.
Qed.

Lemma silent_without_observer_witness :
  console (startWorking 1 "HW2" world_roster) = console world_roster
  ∧ console (submitAssignment 1 "HW2" world_roster) = console world_roster.
Proof.
  destruct (silent_without_observer world_roster 1 "HW2" None
              (mkStudent "B" "b@example.org"
                 [mkAssignment "HW2" "released" None false] None None)
              eq_refl eq_refl) as (_ & Hstart & Hsubmit & _).
  split; [exact Hstart|exact Hsubmit].
Defined.

(** ** More on sendReminder *)

Lemma remindStudent_settles observer name w sid :
  settled name sid (heap (remindStudent observer name w sid)).
Proof.
  intros this aid a Hthis Hf.
  destruct (heap w !! sid) as [student|] eqn:Hs.
  2:{ unfold remindStudent in Hthis. rewrite Hs in Hthis. congruence. }
  rewrite (remindStudent_outcome _ _ _ _ _ Hs) in Hthis.
  unfold reminderOutcome in Hthis.
  assert (Hlt : (sid < length (heap w))%nat) by by eapply lookup_lt_Some.
  destruct (findByName name (assignmentStatuses student)) as [[aid0 a0]|] eqn:Hf0.
  2:{ rewrite Hs in Hthis. injection Hthis as <-. congruence. }
  pose proof (findByName_Some _ _ _ _ Hf0) as [_ Hname0].
  destruct (bool_decide (status a0 = "pass") || bool_decide (status a0 = "fail"))
    eqn:Hterm.
  { rewrite Hs in Hthis. injection Hthis as <-. rewrite Hf0 in Hf.
    injection Hf as <- <-. left.
    apply orb_true_iff in Hterm as [H|H]; apply bool_decide_eq_true in H;
      [by left|by right]. }
  destruct (isSubmitted a0) eqn:Hsub; simpl in Hthis;
    rewrite list_lookup_insert_eq in Hthis by exact Hlt;
    injection Hthis as <-; simpl in Hf;
    erewrite findByName_write in Hf by (first [exact Hf0|exact Hname0]);
    injection Hf as <- <-; right; simpl; auto.
Qed.

Lemma remindStudent_keeps_settled observer name w y sid :
  settled name sid (heap w) →
  settled name sid (heap (remindStudent observer name w y)).
Proof.
  intros Hset. destruct (decide (y = sid)) as [->|Hne].
  - apply remindStudent_settles.
  - pose proof (remindStudent_other observer name w y sid Hne) as Hview.
    injection Hview as Hh _ _. intros this aid a. rewrite Hh. apply Hset.
Qed.

Lemma remind_fold_settles observer name sid roster : ∀ w,
  sid ∈ roster →
  settled name sid (heap (fold_left (remindStudent observer name) roster w)).
Proof.
  assert (Hkeep : ∀ l w, settled name sid (heap w) →
            settled name sid (heap (fold_left (remindStudent observer name) l w))).
  { induction l as [|y l IH]; intros w Hw; [exact Hw|].
    simpl. apply IH. by apply remindStudent_keeps_settled. }
  induction roster as [|x roster IH]; intros w Hin.
  - by apply elem_of_nil in Hin.
  - simpl. apply elem_of_cons in Hin as [->|Hin].
    + apply Hkeep. apply remindStudent_settles.
    + by apply IH.
Qed.

(** X10. After [sendReminder(n)] no student of the roster is left with an
    assignment called [n] that still has to be submitted: each such
    assignment is passed or failed, or it is submitted and its status is
    submitted or final reminder.  This holds for any roster, also one that
    names a student twice. *)
Theorem sendReminder_leaves_none_unsubmitted (w : World) (cid sid : nat)
    (name : string) :
  sid ∈ rosterOf cid w →
  ∀ this aid a,
    heap (sendReminder cid name w) !! sid = Some this →
    _findAssignment name this = Some (aid, a) →
    isTerminal (status a)
    ∨ (isSubmitted a = true
       ∧ (status a = "submitted" ∨ status a = "final reminder")).
Proof.
  unfold rosterOf, sendReminder. intros Hin.
  destruct (classLists w !! cid) as [this|]; [|by apply elem_of_nil in Hin].
  apply (remind_fold_settles (cl_observer this) name sid (students this) w Hin).
Qed.

Lemma sendReminder_leaves_none_unsubmitted_witness :
  isTerminal "submitted"
  ∨ (true = true ∧ ("submitted" = "submitted" ∨ "submitted" = "final reminder")).
Proof.
  apply (sendReminder_leaves_none_unsubmitted world_reminded 0 1 "HW2"
           ltac:(compute_done)
           (mkStudent "B" "b@example.org"
              [mkAssignment "HW2" "submitted" None true] None None)
           0%nat (mkAssignment "HW2" "submitted" None true) eq_refl eq_refl).
Defined.

(** X11. [sendReminder] reaches the students of its own roster only: a
    student that is not on it, in particular one that was removed with
    [removeStudent], keeps its state, gets no notification and no timer;
    class lists and promises are left alone as well. *)
Theorem sendReminder_reaches_roster_only (w : World) (cid sid : nat)
    (name : string) :
  (sid ∉ rosterOf cid w →
   viewOf sid (sendReminder cid name w) = viewOf sid w)
  ∧ viewOf sid (sendReminder cid name (removeStudent cid sid w)) = viewOf sid w
  ∧ classLists (sendReminder cid name w) = classLists w
  ∧ promises (sendReminder cid name w) = promises w.
Proof.
  assert (Hout : ∀ v, sid ∉ rosterOf cid v →
            viewOf sid (sendReminder cid name v) = viewOf sid v).
  { intros v Hnin. unfold rosterOf, sendReminder in *.
    destruct (classLists v !! cid) as [this|]; [|reflexivity].
    by apply remind_fold_other. }
  split; [apply Hout|]. split.
  - rewrite Hout.
    + unfold removeStudent, viewOf. by destruct (classLists w !! cid).
    + rewrite rosterOf_removeStudent. rewrite list_elem_of_In, filter_In.
      intros [_ H]. apply bool_decide_eq_true in H. done.
  - destruct (calm_sendReminder cid name w) as (Hc & Hp & _). done.
Qed.

Lemma sendReminder_reaches_roster_only_witness :
  heap world_unenrolled !! 1%nat
  = Some (mkStudent "B" "b@example.org"
            [mkAssignment "HW2" "released" None false] None None)
  ∧ viewOf 1 (sendReminder 0 "HW2" world_unenrolled) = viewOf 1 world_unenrolled
  ∧ viewOf 1 (sendReminder 0 "HW2" world_roster) ≠ viewOf 1 world_roster.
Proof.
  split; [reflexivity|]. split.
  - apply (proj1 (sendReminder_reaches_roster_only world_unenrolled 0 1 "HW2")).
    compute_done.
  - discriminate.
Defined.

(** ** More on releaseAssignmentsParallel *)

Lemma releaseTimers_zip cid names : ∀ base,
  releaseTimers cid base names
  = zip_with (λ name pid, mkTimer (ReleaseToRoster cid name pid) 0)
      names (seq base (length names)).
Proof.
  induction names as [|n names IH]; intros base; simpl; [reflexivity|].
  by rewrite IH.
Qed.

(** X12. The call of [releaseAssignmentsParallel(names)] itself changes no
    student and no class list and prints nothing: it creates one pending
    promise per name and arms, in the order of [names], one timer of delay
    0 per name that will release that name and resolve that promise.  With
    no names nothing at all changes and the awaitable is resolved at once. *)
Theorem releaseAssignmentsParallel_arms (w : World) (cid : nat)
    (names : list string) :
  let ps := fst (releaseAssignmentsParallel cid names w) in
  let w1 := snd (releaseAssignmentsParallel cid names w) in
  heap w1 = heap w ∧ classLists w1 = classLists w ∧ console w1 = console w
  ∧ ps = seq (length (promises w)) (length names)
  ∧ promises w1 = promises w ++ replicate (length names) false
  ∧ timers w1
    = timers w
      ++ zip_with (λ name pid, mkTimer (ReleaseToRoster cid name pid) 0) names ps
  ∧ (∀ pid, pid ∈ ps → promises w !! pid = None ∧ promises w1 !! pid = Some false)
  ∧ (names = [] → w1 = w ∧ allResolved w1 ps = true).
Proof.
  intros ps w1. unfold ps, w1, releaseAssignmentsParallel.
  rewrite armRelease_fold. simpl.
  split; [reflexivity|]. split; [reflexivity|]. split; [reflexivity|].
  split; [reflexivity|]. split; [reflexivity|].
  split; [by rewrite releaseTimers_zip|]. split.
  - intros pid Hpid. apply elem_of_seq in Hpid. split.
    + apply lookup_ge_None. lia.
    + rewrite lookup_app_r by lia. apply lookup_replicate. split; [done|lia].
  - intros ->. simpl. rewrite !app_nil_r. split; [by destruct w|reflexivity].
Qed.

Lemma releaseAssignmentsParallel_arms_witness :
  promises world_roster !! 0%nat = None
  ∧ promises (snd (releaseAssignmentsParallel 0 ["HW3"] world_roster)) !! 0%nat
    = Some false.
Proof.
  destruct (releaseAssignmentsParallel_arms world_roster 0 ["HW3"])
    as (_ & _ & _ & _ & _ & _ & Hfresh & _).
  apply (Hfresh 0%nat). compute_done.
Defined.

Lemma fire_head queue cb ms rest draw w :
  timers w = queue ++ mkTimer cb ms :: rest →
  fire (length queue) draw w = runCallback draw cb (set_timers (queue ++ rest) w).
Proof.
  intros Ht. unfold fire. rewrite Ht, lookup_app_r by lia.
  rewrite Nat.sub_diag. simpl. by rewrite delete_middle.
Qed.

Lemma run_timers_heapStep ops : ∀ w,
  Forall isTimerOp ops → rtc heapStep (heap w) (heap (run ops w)).
Proof.
  induction ops as [|op ops IH]; intros w Hops; [constructor|].
  apply Forall_cons in Hops as [Hop Hops]. unfold run; simpl.
  etrans; [|by apply IH].
  destruct op; try by destruct Hop. apply fire_heapStep.
Qed.

Lemma release_fold_outside name sid roster : ∀ w,
  sid ∉ roster →
  heap (fold_left (λ w sid, updateAssignmentStatus sid name None w) roster w)
    !! sid = heap w !! sid.
Proof.
  induction roster as [|x roster IH]; intros w Hnin; [reflexivity|].
  apply not_elem_of_cons in Hnin as [Hne Hnin]. simpl. rewrite IH by exact Hnin.
  destruct (heap w !! x) as [this|] eqn:Hx.
  - destruct (release_one x name w this Hx) as (this' & -> & _).
    by rewrite list_lookup_insert_ne.
  - unfold updateAssignmentStatus. by rewrite Hx.
Qed.

(** Firing the releases behind [queue]: every name reaches the roster the
    class list has then, and nobody else. *)
Lemma drain_roster cid this draw names : ∀ base queue w,
  timers w = queue ++ releaseTimers cid base names →
  classLists w !! cid = Some this →
  let w2 := run (replicate (length names) (OpTimer (length queue) draw)) w in
  (∀ name, name ∈ names → releasedTo (students this) name w2)
  ∧ (∀ sid, sid ∉ students this → heap w2 !! sid = heap w !! sid).
Proof.
  induction names as [|n names IH]; intros base queue w Htimers Hthis.
  - simpl. split; [|done]. intros name Hin. by apply elem_of_nil in Hin.
  - simpl in Htimers. cbn [length replicate]. unfold run; simpl.
    fold (run (replicate (length names) (OpTimer (length queue) draw))
            (fire (length queue) draw w)).
    rewrite (fire_head queue _ _ _ draw w Htimers).
    set (w_ := set_timers (queue ++ releaseTimers cid (S base) names) w).
    assert (Hthis_ : classLists w_ !! cid = Some this) by exact Hthis.
    destruct (release_callback draw cid n base this w_ Hthis_)
      as (Hc & Hp & Ht & Hheap).
    set (w' := runCallback draw (ReleaseToRoster cid n base) w_) in *.
    destruct (IH (S base) queue w') as [Hrel Hout].
    { by rewrite Ht. }
    { by rewrite Hc. }
    split.
    + intros name Hin. apply elem_of_cons in Hin as [->|Hin]; [|by apply Hrel].
      apply (releasedTo_steps _ _ w').
      * apply run_timers_heapStep. apply Forall_replicate. exact I.
      * eapply releasedTo_heap; [exact Hheap|]. apply release_fold_releasedTo.
    + intros sid Hnin. rewrite Hout by exact Hnin. rewrite Hheap.
      by rewrite release_fold_outside.
Qed.

(** X13. A release reaches the roster as it is when the timer fires, not
    as it was at the call: a student added between the call and the timers
    gets every name, and a student removed in between gets nothing. *)
Theorem release_uses_roster_at_fire_time (w : World) (cid sid : nat)
    (this : ClassList) (student : Student) (names : list string) :
  classLists w !! cid = Some this →
  heap w !! sid = Some student →
  let w1 := snd (releaseAssignmentsParallel cid names w) in
  let fireAll := run (replicate (length names) (OpTimer (length (timers w)) 0)) in
  (∀ name, name ∈ names →
     ∃ student', heap (fireAll (addStudent cid sid w1)) !! sid = Some student'
                 ∧ is_Some (_findAssignment name student'))
  ∧ heap (fireAll (removeStudent cid sid w1)) !! sid = Some student.
Proof.
  intros Hthis Hstudent w1 fireAll.
  assert (Hw1 : w1 = {| heap := heap w; classLists := classLists w;
                        timers := timers w
                                  ++ releaseTimers cid (length (promises w)) names;
                        promises := promises w ++ replicate (length names) false;
                        console := console w |}).
  { unfold w1, releaseAssignmentsParallel. by rewrite armRelease_fold. }
  assert (Hlt : (cid < length (classLists w))%nat) by by eapply lookup_lt_Some.
  split.
  - intros name Hname.
    set (this' := set_students (students this ++ [sid]) this).
    destruct (drain_roster cid this' 0%Z names (length (promises w)) (timers w)
                (addStudent cid sid w1)) as [Hrel _].
    { unfold addStudent. rewrite Hw1; simpl. by rewrite Hthis, Hstudent. }
    { unfold addStudent. rewrite Hw1; simpl. rewrite Hthis, Hstudent. simpl.
      by apply list_lookup_insert_eq. }
    assert (Hsome : is_Some (heap (fireAll (addStudent cid sid w1)) !! sid)).
    { apply lookup_lt_is_Some.
      assert (Hlen : ∀ h h', rtc heapStep h h' → length h' = length h).
      { induction 1 as [|h1 h2 h3 [h0 i s s' _ _] _ IH]; [done|].
        rewrite IH. apply length_insert. }
      assert (Hops : Forall isTimerOp
                       (replicate (length names) (OpTimer (length (timers w)) 0))).
      { apply Forall_replicate. exact I. }
      unfold fireAll.
      rewrite (Hlen _ _ (run_timers_heapStep _ (addStudent cid sid w1) Hops)).
      unfold addStudent. rewrite Hw1; simpl. rewrite Hthis, Hstudent. simpl.
      by eapply lookup_lt_Some. }
    destruct Hsome as [student' Hs']. exists student'. split; [exact Hs'|].
    apply (Hrel name Hname sid student'); [|exact Hs'].
    simpl. apply elem_of_app. right. by apply list_elem_of_singleton.
  - set (this' := set_students
                    (List.filter (λ s, bool_decide (s ≠ sid)) (students this)) this).
    destruct (drain_roster cid this' 0%Z names (length (promises w)) (timers w)
                (removeStudent cid sid w1)) as [_ Hout].
    { unfold removeStudent. rewrite Hw1; simpl. by rewrite Hthis. }
    { unfold removeStudent. rewrite Hw1; simpl. rewrite Hthis. simpl.
      by apply list_lookup_insert_eq. }
    unfold fireAll. rewrite Hout.
    + unfold removeStudent. rewrite Hw1; simpl. by rewrite Hthis.
    + simpl. rewrite list_elem_of_In, filter_In. intros [_ H].
      apply bool_decide_eq_true in H. done.
Qed.

Lemma release_uses_roster_at_fire_time_witness :
  let w1 := snd (releaseAssignmentsParallel 0 ["HW3"]
                   (removeStudent 0 1 world_roster)) in
  (∃ student', heap (run [OpTimer 0 0] (addStudent 0 1 w1)) !! 1%nat = Some student'
               ∧ is_Some (_findAssignment "HW3" student'))
  ∧ heap (run [OpTimer 0 0] (removeStudent 0 1 w1)) !! 1%nat
    = Some (mkStudent "B" "b@example.org"
              [mkAssignment "HW2" "released" None false] None None).
Proof.
  destruct (release_uses_roster_at_fire_time (removeStudent 0 1 world_roster) 0 1
              (mkClassList [0%nat] (Some (mkObserver true)))
              (mkStudent "B" "b@example.org"
                 [mkAssignment "HW2" "released" None false] None None)
              ["HW3"] eq_refl eq_refl) as [Hadd Hrem].
  split; [|exact Hrem].
  apply (Hadd "HW3"). by apply list_elem_of_singleton.
Defined.

(** ** From working to graded *)

Lemma submitAssignment_fresh v sid name s aid a :
  heap v !! sid = Some s →
  _findAssignment name s = Some (aid, a) →
  isSubmitted a = false →
  submitAssignment sid name v
  = let a' := set_status "submitted" (set_isSubmitted true a) in
    let s' := writeAssignment aid a' s in
    setTimeout (GradeSubmission sid aid) 500
      (notifyVia (_observer s) sid s' a' (writeStudent sid s' v)).
Proof.
  intros Hs Hf Hsub. unfold submitAssignment, findOrCreate.
  rewrite Hs, Hf, Hsub. reflexivity.
Qed.

Lemma findOrCreate_fields fresh name this aid a this1 :
  findOrCreate fresh name this = (aid, a, this1) →
  fullName this1 = fullName this ∧ _observer this1 = _observer this.
Proof.
  unfold findOrCreate. destruct (_findAssignment name this) as [[i x]|];
    by intros [= <- <- <-].
Qed.

(** X14. The life of an assignment that is not yet submitted:
    [startWorking(n)] arms the auto-submit; when that timer fires the
    assignment is submitted and one grading event is armed; when that
    fires with the draw [d] the assignment has grade [d], is passed exactly
    when [d > 50] and failed otherwise, and the overall grade is
    refreshed.  No timer of the three steps is left behind, and an
    observer has seen working, submitted and the verdict, in this order. *)
Theorem working_to_graded (w : World) (sid : nat) (name : string) (draw : Z)
    (this : Student) :
  heap w !! sid = Some this →
  (∀ aid a, _findAssignment name this = Some (aid, a) → isSubmitted a = false) →
  let n := length (timers w) in
  let w1 := startWorking sid name w in
  let w2 := fire n draw w1 in
  let w3 := fire n draw w2 in
  ∃ aid this3 a3,
    timers w1 = timers w ++ [mkTimer (AutoSubmit sid aid name) 500]
    ∧ timers w2 = timers w ++ [mkTimer (GradeSubmission sid aid) 500]
    ∧ timers w3 = timers w
    ∧ heap w3 !! sid = Some this3
    ∧ _findAssignment name this3 = Some (aid, a3)
    ∧ _grade a3 = Some (inject_Z draw)
    ∧ isSubmitted a3 = true
    ∧ (status a3 = "pass" ↔ (50 < draw)%Z)
    ∧ (status a3 = "fail" ↔ (draw <= 50)%Z)
    ∧ overallGrade this3 = fst (getGrade this3)
    ∧ console w3
      = console w
        ++ (if callable (_observer this)
            then [Notification sid (notifyMessage (fullName this) name "working");
                  Notification sid (notifyMessage (fullName this) name "submitted");
                  Notification sid (notifyMessage (fullName this) name (status a3))]
            else []).
Proof.
  intros Hthis Hfresh n w1 w2 w3.
  assert (Hlt : (sid < length (heap w))%nat) by by eapply lookup_lt_Some.
  (* startWorking *)
  assert (Hw1 : w1 = startWorking sid name w) by reflexivity.
  unfold startWorking in Hw1. rewrite Hthis in Hw1.
  destruct (findOrCreate (newAssignment name) name this) as [[aid a] this1] eqn:Hfc.
  pose proof (findOrCreate_fields _ _ _ _ _ _ Hfc) as [Hfn1 Hobs1].
  apply findOrCreate_spec in Hfc as (Hfind1 & Hcases); [|reflexivity].
  pose proof (findByName_Some _ _ _ _ Hfind1) as [Hl1 Hname].
  assert (Hsub : isSubmitted a = false).
  { destruct Hcases as [(Hf & _)|(_ & -> & _)]; [by eapply Hfresh|reflexivity]. }
  set (aw := set_status "working" a) in *.
  set (this2 := writeAssignment aid aw this1) in *.
  assert (Hlaid : (aid < length (assignmentStatuses this1))%nat)
    by by eapply lookup_lt_Some.
  assert (Hfind2 : _findAssignment name this2 = Some (aid, aw)).
  { unfold _findAssignment, this2; simpl. by apply findByName_write with a. }
  assert (Ht1 : timers w1 = timers w ++ [mkTimer (AutoSubmit sid aid name) 500]).
  { rewrite Hw1. simpl. unfold _notifyObserver. by rewrite timers_notifyVia. }
  (* the auto-submit fires *)
  assert (Hw2 : w2 = fire n draw w1) by reflexivity.
  unfold n in Hw2. rewrite (fire_head (timers w) _ _ [] draw w1 Ht1) in Hw2.
  rewrite app_nil_r in Hw2.
  set (v1 := set_timers (timers w) w1) in *.
  assert (Hv1 : heap v1 !! sid = Some this2).
  { unfold v1; simpl. rewrite Hw1, heap_setTimeout, heap_notifyObserver,
      heap_writeStudent. by apply list_lookup_insert_eq. }
  assert (Hc1 : console v1
                = console w ++ (if callable (_observer this)
                                then [Notification sid
                                        (notifyMessage (fullName this) name "working")]
                                else [])).
  { unfold v1; simpl. rewrite Hw1. simpl. unfold _notifyObserver.
    rewrite console_notifyVia. simpl. by rewrite Hobs1, Hfn1, Hname. }
  cbn [runCallback] in Hw2. rewrite Hv1 in Hw2.
  assert (Haw : assignmentStatuses this2 !! aid = Some aw).
  { unfold this2; simpl. by apply list_lookup_insert_eq. }
  rewrite Haw in Hw2.
  assert (Hguard : negb (isSubmitted aw) && bool_decide (status aw ≠ "pass")
                   && bool_decide (status aw ≠ "fail") = true).
  { unfold aw; simpl. by rewrite Hsub. }
  rewrite Hguard in Hw2.
  rewrite (submitAssignment_fresh v1 sid name this2 aid aw Hv1 Hfind2 Hsub) in Hw2.
  cbv zeta in Hw2.
  set (asub := set_status "submitted" (set_isSubmitted true aw)) in *.
  set (this3 := writeAssignment aid asub this2) in *.
  assert (Ht2 : timers w2 = timers w ++ [mkTimer (GradeSubmission sid aid) 500]).
  { rewrite Hw2. simpl. by rewrite timers_notifyVia. }
  (* the grading event fires *)
  assert (Hw3 : w3 = fire n draw w2) by reflexivity.
  unfold n in Hw3. rewrite (fire_head (timers w) _ _ [] draw w2 Ht2) in Hw3.
  rewrite app_nil_r in Hw3.
  set (v2 := set_timers (timers w) w2) in *.
  assert (Hv2 : heap v2 !! sid = Some this3).
  { unfold v2; simpl. rewrite Hw2, heap_setTimeout, heap_notifyVia,
      heap_writeStudent. apply list_lookup_insert_eq.
    unfold v1; simpl. rewrite Hw1, heap_setTimeout, heap_notifyObserver,
      heap_writeStudent. by rewrite length_insert. }
  assert (Hc2 : console v2
                = console v1 ++ (if callable (_observer this)
                                 then [Notification sid
                                         (notifyMessage (fullName this) name "submitted")]
                                 else [])).
  { unfold v2; simpl. rewrite Hw2. simpl.
    rewrite console_notifyVia. simpl. by rewrite Hobs1, Hfn1, Hname. }
  cbn [runCallback] in Hw3. rewrite Hv2 in Hw3.
  assert (Hasub : assignmentStatuses this3 !! aid = Some asub).
  { unfold this3; simpl. apply list_lookup_insert_eq.
    by rewrite length_insert. }
  rewrite Hasub in Hw3.
  set (a3 := setGrade (inject_Z draw) asub) in *.
  set (this4 := snd (getGrade (writeAssignment aid a3 this3))) in *.
  assert (Hfields : fullName this4 = fullName this ∧ _observer this4 = _observer this).
  { unfold this4, getGrade. destruct (decide _); simpl; by rewrite Hfn1, Hobs1. }
  destruct Hfields as [Hfn4 Hobs4].
  exists aid, this4, a3.
  split; [exact Ht1|]. split; [exact Ht2|].
  split. { rewrite Hw3. unfold _notifyObserver. by rewrite timers_notifyVia. }
  split.
  { rewrite Hw3, heap_notifyObserver, heap_writeStudent.
    apply list_lookup_insert_eq. by eapply lookup_lt_Some. }
  split.
  { unfold _findAssignment, this4. rewrite assignmentStatuses_getGrade. simpl.
    apply findByName_write with asub; [|exact Hname].
    apply findByName_write with aw; [|exact Hname].
    apply findByName_write with a; [exact Hfind1|exact Hname]. }
  split; [reflexivity|]. split; [reflexivity|].
  destruct (status_setGrade (inject_Z draw) asub) as [Hpass Hfail].
  assert (HZQ : (50 < draw)%Z ↔ (50 < inject_Z draw)%Q) by (by rewrite Zlt_Qlt).
  split. { etrans; [exact Hpass|]. symmetry. exact HZQ. }
  split.
  { etrans; [exact Hfail|]. rewrite <- HZQ. lia. }
  split.
  { unfold this4. rewrite getGrade_fixpoint. unfold getGrade.
    destruct (decide _); reflexivity. }
  rewrite Hw3. unfold _notifyObserver. rewrite console_notifyVia.
  change (console (writeStudent sid this4 v2)) with (console v2).
  rewrite Hc2, Hc1, Hobs4, Hfn4.
  change (assignmentName a3) with (assignmentName a). rewrite Hname.
  destruct (callable (_observer this)); by rewrite <- ?app_assoc, ?app_nil_r.
Qed.

Lemma working_to_graded_witness :
  ∃ aid this3 a3,
    heap (fire 0 51 (fire 0 51 (startWorking 0 "HW1" world_roster))) !! 0%nat
    = Some this3
    ∧ _findAssignment "HW1" this3 = Some (aid, a3)
    ∧ status a3 = "pass" ∧ isSubmitted a3 = true.
Proof.
  destruct (working_to_graded world_roster 0 "HW1" 51
              (mkStudent "A" "a@example.org"
                 [mkAssignment "HW1" "released" None false] None
                 (Some (mkObserver true))) eq_refl)
    as (aid & this3 & a3 & _ & _ & _ & H1 & H2 & _ & H3 & Hpass & _).
  { intros aid a [= <- <-]. reflexivity. }
  exists aid, this3, a3. split; [exact H1|]. split; [exact H2|].
  split; [apply Hpass; lia|exact H3].
Defined.

(** ** Pending grading events *)

Lemma pendingGradings_setTimeout sid aid cb ms w :
  pendingGradings sid aid (setTimeout cb ms w)
  = (pendingGradings sid aid w
     + match cb with
       | GradeSubmission s a => if bool_decide (s = sid ∧ a = aid) then 1 else 0
       | _ => 0
       end)%nat.
Proof.
  unfold pendingGradings, setTimeout; simpl.
  rewrite List.filter_app, length_app. f_equal. simpl.
  destruct cb; try reflexivity. by destruct (bool_decide _).
Qed.

Lemma pendingGradings_timers sid aid w w' :
  timers w' = timers w → pendingGradings sid aid w' = pendingGradings sid aid w.
Proof. unfold pendingGradings. by intros ->. Qed.

Lemma pendingGradings_delete sid aid i w :
  (pendingGradings sid aid (set_timers (delete i (timers w)) w)
   ≤ pendingGradings sid aid w)%nat.
Proof.
  unfold pendingGradings; simpl. generalize (timers w) as l.
  intros l. revert i. induction l as [|t l IH]; intros [|i]; simpl; try lia.
  - destruct (match callback t with GradeSubmission _ _ => _ | _ => false end);
      simpl; lia.
  - specialize (IH i).
    destruct (match callback t with GradeSubmission _ _ => _ | _ => false end);
      simpl; lia.
Qed.

Lemma submittedAt_steps sid aid h h' :
  rtc heapStep h h' → submittedAt sid aid h → submittedAt sid aid h'.
Proof.
  intros Hsteps (this & a & Hthis & Ha & Hsub).
  destruct (heapSteps_kept _ _ Hsteps sid this aid a Hthis Ha)
    as (this' & a' & H1 & H2 & _ & Hk & _).
  exists this', a'. auto.
Qed.

(** A step that arms no grading event keeps the invariant. *)
Lemma gradingInv_quiet w w' :
  gradingInv w →
  (∀ sid aid, (pendingGradings sid aid w' ≤ pendingGradings sid aid w)%nat) →
  (∀ sid aid, submittedAt sid aid (heap w) → submittedAt sid aid (heap w')) →
  gradingInv w'.
Proof.
  intros Hinv Hcount Hsub sid aid. destruct (Hinv sid aid) as [Hle Hone].
  specialize (Hcount sid aid). split; [lia|].
  intros H. apply Hsub. apply Hone. lia.
Qed.

Lemma gradingInv_submitAssignment sid name w :
  gradingInv w → gradingInv (submitAssignment sid name w).
Proof.
  intros Hinv.
  pose proof (submitAssignment_heapStep sid name w) as Hsteps.
  remember (submitAssignment sid name w) as w' eqn:Hw'.
  unfold submitAssignment in Hw'.
  destruct (heap w !! sid) as [this|] eqn:Hthis; [|by subst].
  destruct (findOrCreate (newAssignment name) name this) as [[aid a] this1] eqn:Hfc.
  apply findOrCreate_spec in Hfc as (Hfind1 & Hcases); [|reflexivity].
  pose proof (findByName_Some _ _ _ _ Hfind1) as [Hl1 Hname].
  destruct (isSubmitted a) eqn:Hsub.
  { destruct Hcases as [(_ & ->)|(_ & -> & _)]; [|discriminate].
    rewrite writeStudent_same in Hw' by done. by subst. }
  set (a' := set_status "submitted" (set_isSubmitted true a)) in *.
  set (this2 := writeAssignment aid a' this1) in *.
  assert (Hcount : ∀ s i,
    pendingGradings s i w'
    = (pendingGradings s i w + if bool_decide (sid = s ∧ aid = i) then 1 else 0)%nat).
  { intros s i. rewrite Hw', pendingGradings_setTimeout. f_equal.
    apply pendingGradings_timers. unfold _notifyObserver.
    by rewrite timers_notifyVia. }
  assert (Hnow : submittedAt sid aid (heap w')).
  { exists this2, a'. split; [|split; [|reflexivity]].
    - rewrite Hw', heap_setTimeout, heap_notifyObserver, heap_writeStudent.
      apply list_lookup_insert_eq. by eapply lookup_lt_Some.
    - unfold this2; simpl. apply list_lookup_insert_eq. by eapply lookup_lt_Some. }
  assert (Hbefore : ¬ submittedAt sid aid (heap w)).
  { intros (this0 & a0 & H0 & Ha0 & Hs0). rewrite Hthis in H0. injection H0 as <-.
    destruct Hcases as [(_ & ->)|(_ & _ & -> & _)].
    - rewrite Hl1 in Ha0. injection Ha0 as <-. congruence.
    - apply lookup_lt_Some in Ha0. lia. }
  intros s i. destruct (Hinv s i) as [Hle Hone]. rewrite Hcount.
  destruct (bool_decide (sid = s ∧ aid = i)) eqn:Hsame.
  - apply bool_decide_eq_true in Hsame as [<- <-].
    assert (pendingGradings sid aid w = 0%nat) as ->.
    { destruct (pendingGradings sid aid w) as [|k] eqn:Hk; [done|].
      exfalso. apply Hbefore. apply Hone. lia. }
    split; [simpl; lia|]. intros _. exact Hnow.
  - rewrite Nat.add_0_r. split; [exact Hle|].
    intros H. eapply submittedAt_steps; [exact Hsteps|]. by apply Hone.
Qed.

Lemma gradingInv_remindStudent observer name w sid :
  gradingInv w → gradingInv (remindStudent observer name w sid).
Proof.
  intros Hinv. unfold remindStudent.
  destruct (heap w !! sid) as [student|] eqn:Hs; [|exact Hinv].
  destruct (findByName name (assignmentStatuses student)) as [[aid a]|] eqn:Hf;
    [|exact Hinv].
  destruct (bool_decide (status a = "pass") || bool_decide (status a = "fail"))
    eqn:Hterm; [exact Hinv|].
  apply gradingInv_submitAssignment.
  apply (gradingInv_quiet w); [exact Hinv| |].
  - intros s i. rewrite (pendingGradings_timers s i w); [lia|].
    by rewrite timers_notifyVia.
  - intros s i. apply submittedAt_steps.
    rewrite heap_notifyVia, heap_writeStudent. apply rtc_once.
    apply hs_student with student; [exact Hs|]. simpl.
    apply findByName_Some in Hf as [Hl _].
    eapply as_write; [exact Hl|]. constructor.
    apply orb_false_iff in Hterm as [Hp Hfl].
    apply bool_decide_eq_false in Hp, Hfl. intros [?|?]; done.
Qed.

Lemma no_grading_in_releaseTimers sid aid cid names : ∀ base,
  List.filter
    (λ t, match callback t with
          | GradeSubmission s a => bool_decide (s = sid ∧ a = aid)
          | _ => false
          end) (releaseTimers cid base names) = [].
Proof. induction names as [|n names IH]; intros base; simpl; [done|apply IH]. Qed.

Lemma gradingInv_exec op w : gradingInv w → gradingInv (exec op w).
Proof.
  intros Hinv.
  assert (Hheap : ∀ sid aid, submittedAt sid aid (heap w) →
                             submittedAt sid aid (heap (exec op w))).
  { intros sid aid. destruct (exec_heapStep op w) as [Hsteps|(s & _ & ->)].
    - by apply submittedAt_steps.
    - intros (this & a & H1 & H2 & H3). exists this, a.
      split; [|done]. rewrite lookup_app_l; [done|by eapply lookup_lt_Some]. }
  assert (Hquiet : (∀ sid aid, (pendingGradings sid aid (exec op w)
                                ≤ pendingGradings sid aid w)%nat) →
                   gradingInv (exec op w)).
  { intros Hcount. by apply (gradingInv_quiet w). }
  destruct op; simpl in *.
  - apply Hquiet. intros. by rewrite (pendingGradings_timers _ _ w).
  - apply Hquiet. intros. by rewrite (pendingGradings_timers _ _ w).
  - apply Hquiet. intros. by rewrite (pendingGradings_timers _ _ w).
  - apply Hquiet. intros. rewrite (pendingGradings_timers _ _ w); [lia|].
    apply updateAssignmentStatus_frame.
  - apply Hquiet. intros s i. unfold startWorking.
    destruct (heap w !! sid) as [this|]; [|lia].
    destruct (findOrCreate _ name this) as [[aid a] this1].
    rewrite pendingGradings_setTimeout, Nat.add_0_r.
    rewrite (pendingGradings_timers _ _ w); [lia|].
    unfold _notifyObserver. by rewrite timers_notifyVia.
  - by apply gradingInv_submitAssignment.
  - apply Hquiet. intros. by rewrite (pendingGradings_timers _ _ w).
  - apply Hquiet. intros. by rewrite (pendingGradings_timers _ _ w).
  - apply Hquiet. intros. rewrite (pendingGradings_timers _ _ w); [lia|].
    unfold addStudent. destruct (classLists w !! cid); [|done].
    by destruct (heap w !! sid).
  - apply Hquiet. intros. rewrite (pendingGradings_timers _ _ w); [lia|].
    unfold removeStudent. by destruct (classLists w !! cid).
  - apply Hquiet. intros s i. unfold releaseAssignmentsParallel.
    rewrite armRelease_fold. unfold pendingGradings; simpl.
    rewrite List.filter_app, length_app.
    rewrite no_grading_in_releaseTimers. simpl. lia.
  - unfold sendReminder. destruct (classLists w !! cid) as [this|]; [|exact Hinv].
    clear Hheap Hquiet. revert w Hinv.
    induction (students this) as [|x roster IH]; intros w Hinv; [exact Hinv|].
    simpl. apply IH. by apply gradingInv_remindStudent.
  - clear Hheap Hquiet. unfold fire.
    destruct (timers w !! i) as [t|]; [|exact Hinv].
    set (w_ := set_timers (delete i (timers w)) w).
    assert (Hinv_ : gradingInv w_).
    { apply (gradingInv_quiet w); [exact Hinv| |done].
      intros. apply pendingGradings_delete. }
    destruct (callback t) as [sid aid name|sid aid|cid name pid]; cbn [runCallback].
    + destruct (heap w_ !! sid) as [this|]; [|exact Hinv_].
      destruct (assignmentStatuses this !! aid) as [a|]; [|exact Hinv_].
      destruct (_ && _); [by apply gradingInv_submitAssignment|exact Hinv_].
    + apply (gradingInv_quiet w_); [exact Hinv_| |].
      * intros s j.
        destruct (heap w_ !! sid) as [this|]; [|lia].
        destruct (assignmentStatuses this !! aid) as [a|]; [|lia].
        rewrite (pendingGradings_timers _ _ w_); [lia|].
        unfold _notifyObserver. by rewrite timers_notifyVia.
      * intros s j. apply submittedAt_steps.
        apply (runCallback_heapStep draw (GradeSubmission sid aid) w_).
    + apply (gradingInv_quiet w_); [exact Hinv_| |].
      * intros s j. destruct (classLists w_ !! cid) as [this|] eqn:Hthis; [|lia].
        destruct (release_fold_frame name (students this) w_) as (_ & _ & Ht).
        rewrite (pendingGradings_timers _ _ w_); [lia|exact Ht].
      * intros s j. apply submittedAt_steps.
        apply (runCallback_heapStep draw (ReleaseToRoster cid name pid) w_).
Qed.

(** X15. In every state a program over the module can reach, an
    assignment has at most one grading event pending, and an assignment
    with a grading event pending is submitted: neither a second
    [submitAssignment], nor a reminder, nor a late auto-submit timer can arm
    a second grading of the same assignment. *)
Theorem at_most_one_pending_grading (w : World) (sid aid : nat) :
  reachable w →
  (pendingGradings sid aid w ≤ 1)%nat
  ∧ (pendingGradings sid aid w = 1%nat →
     ∃ this a, heap w !! sid = Some this
               ∧ assignmentStatuses this !! aid = Some a
               ∧ isSubmitted a = true).
Proof.
  intros Hreach.
  assert (Hinv : gradingInv w).
  { induction Hreach as [|w op _ IH _].
    - intros s i. change (pendingGradings s i initialWorld) with 0%nat.
      split; lia.
    - by apply gradingInv_exec. }
  destruct (Hinv sid aid) as [Hle Hone]. split; [exact Hle|].
  intros H1. apply Hone. lia.
Qed.

Lemma at_most_one_pending_grading_witness :
  pendingGradings 0 0 world_raced = 1%nat
  ∧ ∃ this a, heap world_raced !! 0%nat = Some this
              ∧ assignmentStatuses this !! 0%nat = Some a
              ∧ isSubmitted a = true.
Proof.
  split; [reflexivity|].
  apply (at_most_one_pending_grading world_raced 0 0).
  - apply reachable_run. repeat constructor; simpl; lia.
  - reflexivity.
Defined.

(** ** Names identify assignments *)

Lemma unique_name_found l aid a :
  NoDup (map assignmentName l) → l !! aid = Some a →
  findByName (assignmentName a) l = Some (aid, a).
Proof.
  intros Hnd Ha. unfold findByName. apply list_find_Some.
  split; [exact Ha|]. split; [reflexivity|].
  intros j y Hy Hlt Hname.
  assert (j = aid); [|lia].
  eapply NoDup_lookup; [exact Hnd| |].
  - change (map assignmentName l) with (assignmentName <$> l).
    rewrite list_lookup_fmap, Hy. reflexivity.
  - change (map assignmentName l) with (assignmentName <$> l).
    rewrite list_lookup_fmap, Ha. simpl. by rewrite Hname.
Qed.

(** X16. A student never holds two assignments of the same name: every
    operation keeps the names of each student free of repetition, so in
    every reachable state each assignment a student holds is the one
    [_findAssignment] finds under its name. *)
Theorem names_identify_assignments :
  (∀ op w, Forall uniqueNames (heap w) → Forall uniqueNames (heap (exec op w)))
  ∧ (∀ w sid this aid a,
       reachable w → heap w !! sid = Some this →
       assignmentStatuses this !! aid = Some a →
       _findAssignment (assignmentName a) this = Some (aid, a)).
Proof.
  split.
  - intros op w.
    apply (exec_invariant (λ l, NoDup (map assignmentName l)) (NoDup_nil_2)
             uniqueNames_step).
  - intros w sid this aid a Hreach Hthis Ha.
    pose proof (reachable_invariant (λ l, NoDup (map assignmentName l))
                  (NoDup_nil_2) uniqueNames_step w Hreach) as Hall.
    rewrite Forall_lookup in Hall. specialize (Hall sid this Hthis).
    by apply unique_name_found.
Qed.

Lemma names_identify_assignments_witness :
  _findAssignment "HW1" ada_graded
  = Some (0%nat, mkAssignment "HW1" "pass" (Some 70%Q) true).
Proof.
  apply (proj2 names_identify_assignments world_graded 0%nat ada_graded 0%nat
           (mkAssignment "HW1" "pass" (Some 70%Q) true)
           reachable_world_graded eq_refl eq_refl).
Defined.

(** ** Renaming *)

Lemma heap_alterStudent sid f w this :
  heap w !! sid = Some this →
  heap (alterStudent sid f w) !! sid = Some (f this)
  ∧ ∀ sid', sid' ≠ sid → heap (alterStudent sid f w) !! sid' = heap w !! sid'.
Proof.
  intros Hthis. unfold alterStudent; simpl. split.
  - rewrite list_lookup_alter. rewrite decide_True by done. by rewrite Hthis.
  - intros sid' Hne. rewrite list_lookup_alter. by rewrite decide_False.
Qed.

(** X17. Rosters hold students by reference: [setFullName] and [setEmail]
    change that one field of that one student and nothing else, so the
    student stays on every roster it was on, is found by
    [findStudentByName] under its new name (itself or a namesake earlier on
    the roster), and is still removed by [removeStudent]. *)
Theorem renaming_keeps_membership (w : World) (cid sid : nat) (name mail : string)
    (this : Student) :
  heap w !! sid = Some this →
  let w1 := exec (OpSetFullName sid name) w in
  let w2 := exec (OpSetEmail sid mail) w in
  heap w1 !! sid = Some (setFullName name this)
  ∧ heap w2 !! sid = Some (setEmail mail this)
  ∧ (∀ sid', sid' ≠ sid →
       heap w1 !! sid' = heap w !! sid' ∧ heap w2 !! sid' = heap w !! sid')
  ∧ classLists w1 = classLists w ∧ classLists w2 = classLists w
  ∧ timers w1 = timers w ∧ console w1 = console w
  ∧ (sid ∈ rosterOf cid w →
       ∃ found s, findStudentByName cid name w1 = Some found
                  ∧ heap w1 !! found = Some s ∧ fullName s = name)
  ∧ (sid ∉ rosterOf cid (removeStudent cid sid w1)).
Proof.
  intros Hthis w1 w2.
  destruct (heap_alterStudent sid (setFullName name) w this Hthis) as [H1 H1'].
  destruct (heap_alterStudent sid (setEmail mail) w this Hthis) as [H2 H2'].
  split; [exact H1|]. split; [exact H2|].
  split; [intros sid' Hne; split; [by apply H1'|by apply H2']|].
  split; [reflexivity|]. split; [reflexivity|].
  split; [reflexivity|]. split; [reflexivity|].
  split.
  - intros Hin.
    assert (Hroster : rosterOf cid w1 = rosterOf cid w) by reflexivity.
    pose proof (find_first
                  (λ sid, match heap w1 !! sid with
                          | Some s => bool_decide (fullName s = name)
                          | None => false
                          end) (rosterOf cid w)) as Hfind.
    unfold findStudentByName. unfold rosterOf in Hin, Hfind.
    change (classLists w1) with (classLists w).
    destruct (classLists w !! cid) as [cl|]; [|by apply elem_of_nil in Hin].
    destruct (List.find _ (students cl)) as [found|].
    + destruct Hfind as (k & _ & Hp & _).
      destruct (heap w1 !! found) as [s|] eqn:Hs; [|discriminate].
      exists found, s. split; [done|]. split; [done|].
      by apply bool_decide_eq_true in Hp.
    + specialize (Hfind sid Hin). cbv beta in Hfind.
      change (heap (alterStudent sid (setFullName name) w)) with (heap w1) in H1.
      rewrite H1 in Hfind. cbn [fullName setFullName] in Hfind.
      by apply bool_decide_eq_false in Hfind.
  - rewrite rosterOf_removeStudent. rewrite list_elem_of_In, filter_In.
    intros [_ H]. apply bool_decide_eq_true in H. done.
Qed.

Lemma renaming_keeps_membership_witness :
  ∃ found s, findStudentByName 0 "Bea"
               (exec (OpSetFullName 1 "Bea") world_roster) = Some found
             ∧ heap (exec (OpSetFullName 1 "Bea") world_roster) !! found = Some s
             ∧ fullName s = "Bea".
Proof.
  destruct (renaming_keeps_membership world_roster 0 1 "Bea" "bea@example.org"
              (mkStudent "B" "b@example.org"
                 [mkAssignment "HW2" "released" None false] None None) eq_refl)
    as (_ & _ & _ & _ & _ & _ & _ & Hfound & _).
  apply Hfound. compute_done.
Defined.

(** ** A reminder and the outstanding list *)

Lemma heapSteps_length h h' : rtc heapStep h h' → length h' = length h.
Proof.
  induction 1 as [|h1 h2 h3 [h0 i s s' _ _] _ IH]; [done|].
  rewrite IH. apply length_insert.
Qed.

Lemma filter_none {A} (p : A → bool) (l : list A) :
  (∀ x, x ∈ l → p x = false) → List.filter p l = [].
Proof.
  induction l as [|x l IH]; intros H; [reflexivity|]. simpl.
  rewrite (H x) by (by left). apply IH. intros y Hy. apply H. by right.
Qed.

(** X18. A reminder empties the outstanding list: when each student is on
    the roster once, nobody has a submission of [n] in flight and somebody
    on the roster has an assignment called [n], then right after
    [sendReminder(n)] the query [findOutstandingAssignments(n)] returns no
    name. *)
Theorem reminder_clears_outstanding (w : World) (cid : nat) (name : string)
    (this : ClassList) :
  classLists w !! cid = Some this →
  NoDup (students this) →
  (∀ sid s aid a,
     sid ∈ students this → heap w !! sid = Some s →
     findByName name (assignmentStatuses s) = Some (aid, a) →
     isSubmitted a = true → isTerminal (status a)) →
  (∃ sid s, sid ∈ students this ∧ heap w !! sid = Some s
            ∧ is_Some (findByName name (assignmentStatuses s))) →
  findOutstandingAssignments cid name (sendReminder cid name w) = [].
Proof.
  intros Hthis Hnd Hflight (sid0 & s0 & Hin0 & Hs0 & Hhas0).
  set (w' := sendReminder cid name w).
  assert (Hw' : w' = fold_left (remindStudent (cl_observer this) name)
                       (students this) w).
  { unfold w', sendReminder. by rewrite Hthis. }
  assert (Hcl : classLists w' !! cid = Some this).
  { unfold w'. destruct (calm_sendReminder cid name w) as (-> & _). exact Hthis. }
  assert (Hdone : ∀ sid s', sid ∈ students this → heap w' !! sid = Some s' →
            match findByName name (assignmentStatuses s') with
            | Some (_, a) => isCompleted (status a) = true
            | None => True
            end).
  { intros sid s' Hin Hs'.
    destruct (heap w !! sid) as [s|] eqn:Hs.
    2:{ apply lookup_ge_None in Hs. apply lookup_lt_Some in Hs'.
        unfold w' in Hs'.
        rewrite (heapSteps_length _ _ (sendReminder_heapStep cid name w)) in Hs'.
        lia. }
    destruct (reminderOutcome (cl_observer this) name sid s)
      as [[[s1 lines] armed]|] eqn:Hout.
    - pose proof (remind_fold_once _ _ _ _ _ _ _ _ w Hnd Hin Hs Hout) as Hview.
      rewrite <- Hw' in Hview. injection Hview as Hh _ _.
      rewrite Hh in Hs'. injection Hs' as <-.
      unfold reminderOutcome in Hout.
      destruct (findByName name (assignmentStatuses s)) as [[aid a]|] eqn:Hf;
        [|discriminate].
      pose proof (findByName_Some _ _ _ _ Hf) as [_ Hname].
      destruct (bool_decide (status a = "pass") || bool_decide (status a = "fail"))
        eqn:Hterm; [discriminate|].
      destruct (isSubmitted a) eqn:Hsub.
      + exfalso. destruct (Hflight sid s aid a Hin Hs Hf Hsub) as [Hp|Hp];
          rewrite Hp in Hterm; discriminate.
      + injection Hout as <- _ _. simpl.
        by erewrite findByName_write by (first [exact Hf|exact Hname]).
    - apply reminderOutcome_None in Hout as Hpo.
      pose proof (remind_fold_passedOver (cl_observer this) name sid s
                    (students this) w Hs Hpo) as Hview.
      rewrite <- Hw' in Hview. injection Hview as Hh _ _.
      rewrite Hh, Hs in Hs'. injection Hs' as <-.
      destruct Hpo as [->|(aid & a & -> & [Hp|Hp])]; [done| |];
        unfold isCompleted; rewrite Hp; reflexivity. }
  unfold findOutstandingAssignments. fold w'. rewrite Hcl.
  unfold findOutstanding. rewrite scan_fold. simpl.
  assert (Hany : existsb
     (λ s, match findByName name (assignmentStatuses s) with
           | Some (_, a) => isCompleted (status a)
           | None => false
           end) (deref w' (students this)) = true).
  { assert (Hs0' : is_Some (heap w' !! sid0)).
    { apply lookup_lt_is_Some. unfold w'.
      rewrite (heapSteps_length _ _ (sendReminder_heapStep cid name w)).
      by eapply lookup_lt_Some. }
    destruct Hs0' as [s0' Hs0'].
    apply existsb_exists. exists s0'. split.
    - apply list_elem_of_In. unfold deref. apply list_elem_of_omap. eauto.
    - specialize (Hdone sid0 s0' Hin0 Hs0').
      assert (Hhas : is_Some (findByName name (assignmentStatuses s0'))).
      { apply (heapSteps_holds name sid0 (heap w) (heap w')
                 (sendReminder_heapStep cid name w)); [|exact Hs0'].
        intros s Hs. rewrite Hs0 in Hs. by injection Hs as <-. }
      destruct Hhas as [[aid a] Hf]. rewrite Hf in *. exact Hdone. }
  rewrite Hany.
  rewrite filter_none; [reflexivity|].
  intros s' Hs'. unfold deref in Hs'. apply list_elem_of_omap in Hs' as (sid & Hin & Hs').
  specialize (Hdone sid s' Hin Hs').
  destruct (findByName name (assignmentStatuses s')) as [[aid a]|]; [|reflexivity].
  by rewrite Hdone.
Qed.

Lemma reminder_clears_outstanding_witness :
  findOutstandingAssignments 0 "HW2" (sendReminder 0 "HW2" world_roster) = [].
Proof.
  apply (reminder_clears_outstanding world_roster 0 "HW2" class_roster eq_refl).
  - compute_done.
  - intros sid s aid a Hin Hs Hf Hsub.
    apply elem_of_cons in Hin as [->|Hin].
    + injection Hs as <-. discriminate.
    + apply list_elem_of_singleton in Hin as ->. injection Hs as <-.
      injection Hf as <- <-. discriminate.
  - exists 1%nat. eexists. split; [compute_done|]. split; [reflexivity|].
    by eexists.
Defined.

(** ** Asking for the status after an operation *)

Lemma findByName_write_frame n' l : ∀ aid a a',
  l !! aid = Some a → assignmentName a' = assignmentName a →
  assignmentName a ≠ n' →
  findByName n' (<[aid := a']> l) = findByName n' l.
Proof.
  unfold findByName. induction l as [|x l IH]; intros aid a a' Ha Hn Hne;
    [done|].
  destruct aid as [|aid]; simpl in Ha.
  - injection Ha as ->. cbn.
    rewrite (decide_False (P := assignmentName a' = n')) by congruence.
    by rewrite (decide_False (P := assignmentName a = n')) by done.
  - cbn. destruct (decide (assignmentName x = n')); [done|].
    f_equal. exact (IH aid a a' Ha Hn Hne).
Qed.

Lemma findByName_push_frame n' l a' :
  assignmentName a' ≠ n' → findByName n' (l ++ [a']) = findByName n' l.
Proof.
  unfold findByName. intros Hne. induction l as [|x l IH]; cbn.
  - by rewrite decide_False by done.
  - destruct (decide (assignmentName x = n')); [done|]. f_equal. exact IH.
Qed.

Lemma status_after_write fresh name this aid a this1 a' :
  findOrCreate fresh name this = (aid, a, this1) →
  assignmentName fresh = name → assignmentName a' = name →
  _findAssignment name (writeAssignment aid a' this1) = Some (aid, a')
  ∧ ∀ n', n' ≠ name →
      getAssignmentStatus n' (writeAssignment aid a' this1)
      = getAssignmentStatus n' this.
Proof.
  intros Hfc Hfresh Hname'.
  apply findOrCreate_spec in Hfc as (Hfind1 & Hcases); [|exact Hfresh].
  pose proof (findByName_Some _ _ _ _ Hfind1) as [Hl1 Hname].
  split.
  { unfold _findAssignment; simpl. by apply findByName_write with a. }
  intros n' Hne. unfold getAssignmentStatus, _findAssignment. simpl.
  destruct Hcases as [(_ & ->)|(_ & -> & -> & ->)].
  - rewrite (findByName_write_frame n' _ aid a a'); [done|done|congruence|congruence].
  - simpl. rewrite insert_app_r_alt by lia. rewrite Nat.sub_diag. simpl.
    rewrite findByName_push_frame; [done|congruence].
Qed.

(** X19. Asking with [getAssignmentStatus(n)] right after an operation on
    [n]: after [startWorking(n)] the answer is working; after
    [updateAssignmentStatus(n, g)] it is Pass for [g > 50] and Fail
    otherwise; after a release it is released for a new assignment and
    unchanged for an old one; after [submitAssignment(n)] it is submitted
    unless the assignment was submitted before, when it is unchanged.  The
    answers for every other name, and for every other student, stay as they
    were. *)
Theorem status_after_operation (w : World) (sid : nat) (name : string)
    (this : Student) :
  heap w !! sid = Some this →
  statusOf sid name (startWorking sid name w) = Some "working"
  ∧ (∀ g, (50 < g)%Q →
       statusOf sid name (updateAssignmentStatus sid name (Some g) w) = Some "Pass")
  ∧ (∀ g, ¬ (50 < g)%Q →
       statusOf sid name (updateAssignmentStatus sid name (Some g) w) = Some "Fail")
  ∧ statusOf sid name (updateAssignmentStatus sid name None w)
    = Some (match _findAssignment name this with
            | Some _ => getAssignmentStatus name this
            | None => "released"
            end)
  ∧ statusOf sid name (submitAssignment sid name w)
    = Some (match _findAssignment name this with
            | Some (_, a) =>
                if isSubmitted a then getAssignmentStatus name this else "submitted"
            | None => "submitted"
            end)
  ∧ (∀ sid' n' grade, sid' ≠ sid ∨ n' ≠ name →
       statusOf sid' n' (startWorking sid name w) = statusOf sid' n' w
       ∧ statusOf sid' n' (updateAssignmentStatus sid name grade w)
         = statusOf sid' n' w
       ∧ statusOf sid' n' (submitAssignment sid name w) = statusOf sid' n' w).
Proof.
  intros Hthis.
  assert (Hlt : (sid < length (heap w))%nat) by by eapply lookup_lt_Some.
  assert (Hstart : ∃ aid a this1,
    findOrCreate (newAssignment name) name this = (aid, a, this1)
    ∧ heap (startWorking sid name w)
      = <[sid := writeAssignment aid (set_status "working" a) this1]> (heap w)).
  { unfold startWorking. rewrite Hthis.
    destruct (findOrCreate _ name this) as [[aid a] this1].
    exists aid, a, this1. split; [done|].
    by rewrite heap_setTimeout, heap_notifyObserver. }
  assert (Hupd : ∀ grade, ∃ aid a this1,
    findOrCreate (set_status "released" (newAssignment name)) name this
    = (aid, a, this1)
    ∧ heap (updateAssignmentStatus sid name grade w)
      = <[sid := writeAssignment aid
                   (match grade with Some g => setGrade g a | None => a end)
                   this1]> (heap w)).
  { intros grade.
    destruct (findOrCreate (set_status "released" (newAssignment name)) name this)
      as [[aid a] this1] eqn:Hfc.
    exists aid, a, this1. split; [reflexivity|].
    unfold updateAssignmentStatus. rewrite Hthis, Hfc.
    by rewrite heap_notifyObserver. }
  assert (Hsubmit : ∃ aid a this1,
    findOrCreate (newAssignment name) name this = (aid, a, this1)
    ∧ heap (submitAssignment sid name w)
      = if isSubmitted a then heap w
        else <[sid := writeAssignment aid
                        (set_status "submitted" (set_isSubmitted true a))
                        this1]> (heap w)).
  { unfold submitAssignment. rewrite Hthis.
    destruct (findOrCreate _ name this) as [[aid a] this1] eqn:Hfc.
    exists aid, a, this1. split; [done|].
    destruct (isSubmitted a) eqn:Hsub.
    - apply findOrCreate_spec in Hfc as (_ & [(_ & ->)|(_ & -> & _)]);
        [|discriminate|reflexivity].
      by rewrite writeStudent_same.
    - by rewrite heap_setTimeout, heap_notifyObserver. }
  assert (Hshow : ∀ aid a s,
    _findAssignment name s = Some (aid, a) →
    getAssignmentStatus name s
    = if decide (status a = "pass") then "Pass"
      else if decide (status a = "fail") then "Fail" else status a).
  { intros aid a s Hf. unfold getAssignmentStatus. by rewrite Hf. }
  assert (Hname_upd : ∀ a grade, assignmentName a = name →
    assignmentName (match grade with Some g => setGrade g a | None => a end) = name).
  { intros a [g|] Hn; exact Hn. }
  split; [|split; [|split; [|split; [|split]]]].
  - destruct Hstart as (aid & a & this1 & Hfc & Hh).
    pose proof (findOrCreate_spec (newAssignment name) name _ _ _ _ eq_refl Hfc) as (Hf1 & _).
    apply findByName_Some in Hf1 as [_ Hn].
    destruct (status_after_write _ _ _ _ _ _ (set_status "working" a) Hfc eq_refl Hn)
      as [Hf _].
    unfold statusOf. rewrite Hh, list_lookup_insert_eq by exact Hlt. simpl.
    by rewrite (Hshow _ _ _ Hf).
  - intros g Hg. destruct (Hupd (Some g)) as (aid & a & this1 & Hfc & Hh).
    pose proof (findOrCreate_spec (set_status "released" (newAssignment name)) name _ _ _ _ eq_refl Hfc) as (Hf1 & _).
    apply findByName_Some in Hf1 as [_ Hn].
    destruct (status_after_write _ _ _ _ _ _ (setGrade g a) Hfc eq_refl Hn)
      as [Hf _].
    unfold statusOf. rewrite Hh, list_lookup_insert_eq by exact Hlt. simpl.
    rewrite (Hshow _ _ _ Hf).
    destruct (status_setGrade g a) as [Hp _]. apply Hp in Hg. by rewrite Hg.
  - intros g Hg. destruct (Hupd (Some g)) as (aid & a & this1 & Hfc & Hh).
    pose proof (findOrCreate_spec (set_status "released" (newAssignment name)) name _ _ _ _ eq_refl Hfc) as (Hf1 & _).
    apply findByName_Some in Hf1 as [_ Hn].
    destruct (status_after_write _ _ _ _ _ _ (setGrade g a) Hfc eq_refl Hn)
      as [Hf _].
    unfold statusOf. rewrite Hh, list_lookup_insert_eq by exact Hlt. simpl.
    rewrite (Hshow _ _ _ Hf).
    destruct (status_setGrade g a) as [_ Hfl]. apply Hfl in Hg. by rewrite Hg.
  - destruct (Hupd None) as (aid & a & this1 & Hfc & Hh).
    pose proof (findOrCreate_spec (set_status "released" (newAssignment name)) name _ _ _ _ eq_refl Hfc) as (Hf1 & Hcases).
    pose proof (findByName_Some _ _ _ _ Hf1) as [_ Hn].
    destruct (status_after_write _ _ _ _ _ _ a Hfc eq_refl Hn) as [Hf _].
    unfold statusOf. rewrite Hh, list_lookup_insert_eq by exact Hlt. simpl.
    rewrite (Hshow _ _ _ Hf).
    destruct Hcases as [(Hfind & ->)|(Hfind & -> & _)]; rewrite Hfind.
    + by rewrite (Hshow _ _ _ Hfind).
    + reflexivity.
  - destruct Hsubmit as (aid & a & this1 & Hfc & Hh).
    pose proof (findOrCreate_spec (newAssignment name) name _ _ _ _ eq_refl Hfc) as (Hf1 & Hcases).
    pose proof (findByName_Some _ _ _ _ Hf1) as [_ Hn].
    unfold statusOf. rewrite Hh.
    destruct (isSubmitted a) eqn:Hsub.
    + rewrite Hthis. simpl.
      destruct Hcases as [(Hfind & ->)|(_ & -> & _)]; [|discriminate].
      by rewrite Hfind, Hsub.
    + destruct (status_after_write _ _ _ _ _ _
                  (set_status "submitted" (set_isSubmitted true a)) Hfc eq_refl Hn)
        as [Hf _].
      rewrite list_lookup_insert_eq by exact Hlt. simpl.
      rewrite (Hshow _ _ _ Hf). simpl.
      destruct Hcases as [(Hfind & ->)|(Hfind & -> & _)]; rewrite Hfind;
        [by rewrite Hsub|reflexivity].
  - intros sid' n' grade Hother.
    assert (Hframe : ∀ aid a this1 fresh a',
      findOrCreate fresh name this = (aid, a, this1) →
      assignmentName fresh = name → assignmentName a' = name →
      getAssignmentStatus n' <$> <[sid := writeAssignment aid a' this1]> (heap w) !! sid'
      = statusOf sid' n' w).
    { intros aid a this1 fresh a' Hfc Hfresh Hn'. unfold statusOf.
      destruct (decide (sid' = sid)) as [->|Hne].
      - rewrite list_lookup_insert_eq by exact Hlt. rewrite Hthis. simpl. f_equal.
        destruct Hother as [?|Hn]; [done|].
        by apply (status_after_write _ _ _ _ _ _ a' Hfc Hfresh Hn').
      - by rewrite list_lookup_insert_ne. }
    split; [|split].
    + destruct Hstart as (aid & a & this1 & Hfc & Hh).
      pose proof (findOrCreate_spec (newAssignment name) name _ _ _ _ eq_refl Hfc) as (Hf1 & _).
      apply findByName_Some in Hf1 as [_ Hn].
      unfold statusOf at 1. rewrite Hh. by eapply Hframe.
    + destruct (Hupd grade) as (aid & a & this1 & Hfc & Hh).
      pose proof (findOrCreate_spec (set_status "released" (newAssignment name)) name _ _ _ _ eq_refl Hfc) as (Hf1 & _).
      apply findByName_Some in Hf1 as [_ Hn].
      unfold statusOf at 1. rewrite Hh.
      eapply Hframe; [exact Hfc|reflexivity|by apply Hname_upd].
    + destruct Hsubmit as (aid & a & this1 & Hfc & Hh).
      pose proof (findOrCreate_spec (newAssignment name) name _ _ _ _ eq_refl Hfc) as (Hf1 & _).
      apply findByName_Some in Hf1 as [_ Hn].
      unfold statusOf at 1. rewrite Hh.
      destruct (isSubmitted a); [reflexivity|]. by eapply Hframe.
Qed.

Lemma status_after_operation_witness :
  statusOf 0 "HW1" (startWorking 0 "HW1" world_graded) = Some "working"
  ∧ statusOf 0 "HW1" (submitAssignment 0 "HW1" world_graded) = Some "Pass".
Proof.
  destruct (status_after_operation world_graded 0 "HW1" ada_graded eq_refl)
    as (Hstart & _ & _ & _ & Hsubmit & _).
  split; [exact Hstart|exact Hsubmit].
Defined.
